(** * flagger metrics providers: factory, Datadog client, CloudWatch client

    A shallow embedding of [pkg/metrics/providers]: the two revisions of
    [Factory.Provider], the Datadog client ([datadog.go]) and the CloudWatch
    client.  Go values are modelled as follows:

    - [string] is a byte string; [[]byte] is [list Byte.byte];
    - [int64], [time.Duration] and Unix times are [Z];
    - [float64] is IEEE 754 binary64, through the executable specification of
      the standard library ([SpecFloat], precision 53, [emax] 1024);
    - [map[string][]byte] is a [gmap string (list Byte.byte)];
    - a pointer result that may be [nil] is an [option];
    - a call either returns or panics ([Go.outcome]); a Go result pair
      [(v, err)] is a Rocq pair whose second component is [option Go.error].

    Functions of packages outside the repository (the HTTP transport, the
    clock, [time.ParseDuration], [encoding/json] for SDK types, the AWS SDK)
    are parameters of the definitions that call them, and so are the
    functions of the repository outside these files (the constructors of the
    Prometheus client and the two constructors of the older revision of
    [Factory.Provider]). *)

From Stdlib Require Import ZArith List String Ascii QArith Lia Bool.
From Stdlib Require Import Floats.SpecFloat.
From Stdlib Require Import Numbers.DecimalString.
From stdpp Require Import base option gmap strings list.

Set Warnings "-register-all".

(** ** Go runtime *)

Module Go.

(** An [error] value: what its [Error()] method prints, and whether its
    dynamic type implements [awserr.RequestFailure] (and then its HTTP
    status code). *)
Inductive error :=
| errorString (text : string)
| requestFailure (text : string) (statusCode : Z).

Definition Error (e : error) : string :=
  match e with
  | errorString text => text
  | requestFailure text _ => text
  end.

(** [fmt.Errorf] with the format already applied. *)
Definition Errorf (text : string) : error := errorString text.

(** A call returns a value or panics. *)
Inductive outcome (A : Type) :=
| Returns (a : A)
| Panics (msg : string).
Arguments Returns {A} a.
Arguments Panics {A} msg.

Definition bind {A B} (x : outcome A) (k : A -> outcome B) : outcome B :=
  match x with
  | Returns a => k a
  | Panics msg => Panics msg
  end.

(** [len(s)] *)
Definition len {A} (s : list A) : Z := Z.of_nat (length s).

(** Wrap-around of [int64] arithmetic. *)
Definition int64 (z : Z) : Z := ((z + 2 ^ 63) mod 2 ^ 64 - 2 ^ 63)%Z.

(** [string(b)] for [b []byte]. *)
Definition string_of_bytes (b : list Byte.byte) : string :=
  string_of_list_byte b.

(** [strconv.FormatInt(i, 10)] *)
Definition FormatInt (i : Z) : string := NilZero.string_of_int (Z.to_int i).

(** [s[i]] on a slice: a run-time panic when [i] is out of range. *)
Definition index {A} (s : list A) (i : Z) : outcome A :=
  if (i <? 0)%Z then
    Panics ("runtime error: index out of range [" +:+ FormatInt i +:+ "]")
  else match s !! Z.to_nat i with
       | Some a => Returns a
       | None =>
           Panics ("runtime error: index out of range [" +:+ FormatInt i
                   +:+ "] with length " +:+ FormatInt (len s))
       end.

(** [*p]: a run-time panic on [nil]. *)
Definition deref {A} (p : option A) : outcome A :=
  match p with
  | Some a => Returns a
  | None =>
      Panics "runtime error: invalid memory address or nil pointer dereference"
  end.

(** Texts that hold double quotes are written in this file with an
    apostrophe for each of them; [quoted] puts the double quotes back. *)
Fixpoint quoted (s : string) : string :=
  match s with
  | EmptyString => EmptyString
  | String c rest =>
      String (if Ascii.eqb c "'" then "034"%char else c) (quoted rest)
  end.

End Go.

#[global] Instance outcome_ret : MRet Go.outcome := @Go.Returns.
#[global] Instance outcome_bind : MBind Go.outcome :=
  fun A B k x => Go.bind x k.

(** ** float64 *)

Module Float64.

Definition prec : Z := 53.
Definition emax : Z := 1024.

Definition float64 := spec_float.

Definition zero : float64 := S754_zero false.

(** [float64(i)] for an integer [i]: rounded to nearest, ties to even. *)
Definition of_int (i : Z) : float64 := binary_normalize prec emax i 0 false.

Definition add : float64 -> float64 -> float64 := SFadd prec emax.
Definition mul : float64 -> float64 -> float64 := SFmul prec emax.
Definition div : float64 -> float64 -> float64 := SFdiv prec emax.

(** The integer part of a finite value [(-1)^s * m * 2^e], rounded toward
    zero ([Z.shiftl] by a negative [e] shifts to the right). *)
Definition trunc (f : float64) : option Z :=
  match f with
  | S754_zero _ => Some 0%Z
  | S754_finite s m e => Some (cond_Zopp s (Z.shiftl (Zpos m) e))
  | S754_infinity _ | S754_nan => None
  end.

(** [int64(f)]: the fraction is discarded.  A value that does not fit is
    implementation-specific in Go; amd64 yields the least [int64]. *)
Definition to_int64 (f : float64) : Z :=
  match trunc f with
  | Some z => if ((- 2 ^ 63 <=? z) && (z <? 2 ^ 63))%Z then z else (- 2 ^ 63)%Z
  | None => (- 2 ^ 63)%Z
  end.

(** The rational a finite value denotes, in lowest terms. *)
Definition to_Q (f : float64) : option Q :=
  match f with
  | S754_zero _ => Some (0 # 1)
  | S754_finite s m (Zneg p) =>
      Some (Qred (cond_Zopp s (Zpos m) # Pos.shiftl 1 (Npos p)))
  | S754_finite s m e => Some (cond_Zopp s (Z.shiftl (Zpos m) e) # 1)
  | S754_infinity _ | S754_nan => None
  end.

(** The value nearest to [(-1)^s * m * 10^e], as [strconv.ParseFloat]
    yields it for a decimal literal; an infinity when it is too large. *)
Definition of_decimal (s : bool) (m : N) (e : Z) : float64 :=
  match m with
  | N0 => S754_zero s
  | Npos p =>
      match e with
      | Zneg k =>
          SFdiv prec emax (S754_finite s p 0)
                           (S754_finite false (Pos.pow 10 k) 0)
      | _ => binary_normalize prec emax (cond_Zopp s (Zpos p * 10 ^ e)) 0 s
      end
  end.

(** The float of a positive integer [m] below [2^53], with sign [s]: [m]
    shifted to 53 bits. *)
Definition exact (s : bool) (m : positive) : float64 :=
  S754_finite s (Z.to_pos (Zpos m * 2 ^ (52 - Z.log2 (Zpos m))))
              (Z.log2 (Zpos m) - 52).

End Float64.

(** ** Package [strings] *)

Module strings.

(** Whether byte [c] occurs in [cutset]. *)
Fixpoint inCutset (cutset : string) (c : ascii) : bool :=
  match cutset with
  | EmptyString => false
  | String d rest => if Ascii.eqb c d then true else inCutset rest c
  end.

(** [strings.TrimLeft(s, cutset)]: [s] without its leading bytes that occur
    in [cutset].  (Go trims runes; on an ASCII [cutset], as in this
    repository, it trims byte by byte.) *)
Fixpoint TrimLeft (s cutset : string) : string :=
  match s with
  | EmptyString => EmptyString
  | String c rest => if inCutset cutset c then TrimLeft rest cutset else s
  end.

(** [strings.TrimRight(s, cutset)]: [s] without its trailing bytes that
    occur in [cutset]. *)
Fixpoint TrimRight (s cutset : string) : string :=
  match s with
  | EmptyString => EmptyString
  | String c rest =>
      match TrimRight rest cutset with
      | EmptyString => if inCutset cutset c then EmptyString
                       else String c EmptyString
      | t => String c t
      end
  end.

End strings.

(** ** Package [encoding/json], for the Datadog response

    [json.Unmarshal] first checks the syntax of the whole input, then stores
    the members whose name matches a field of the target.  [parse] is the
    syntax check, with its bound on the nesting of arrays and objects; it
    keeps the values it reads.  The text of the errors of [encoding/json] is
    not reproduced: each kind of error has one text. *)

Module json.

(** A number literal [(-1)^neg * mantissa * 10^exp10]. *)
Record number := Number { neg : bool; mantissa : N; exp10 : Z }.

Inductive value :=
| Null
| Bool (b : bool)
| Num (n : number)
| Str (s : string)
| Arr (elements : list value)
| Obj (members : list (string * value)).

Definition isSpace (c : ascii) : bool :=
  match nat_of_ascii c with
  | 32%nat | 9%nat | 13%nat | 10%nat => true
  | _ => false
  end.

Fixpoint skip (s : string) : string :=
  match s with
  | String c rest => if isSpace c then skip rest else s
  | EmptyString => s
  end.

Definition digit (c : ascii) : option N :=
  let n := N_of_ascii c in
  if ((48 <=? n) && (n <=? 57))%N then Some (n - 48)%N else None.

(** A run of decimal digits: the number read after [acc], how many digits
    were read, and the rest. *)
Fixpoint digits (s : string) (acc : N) (count : Z) : N * Z * string :=
  match s with
  | String c rest =>
      match digit c with
      | Some d => digits rest (10 * acc + d)%N (count + 1)%Z
      | None => (acc, count, s)
      end
  | EmptyString => (acc, count, s)
  end.

(** A number literal: an optional minus sign; [0], or a digit from 1 to 9
    and more digits; then, optionally, a point and one digit or more; then,
    optionally, [e] or [E], a sign and one digit or more. *)
Definition parseNumber (s : string) : option (number * string) :=
  let '(sign, s) := match s with
                    | String "-" rest => (true, rest)
                    | _ => (false, s)
                    end in
  ip ← match s with
       | String "0" rest => Some (0%N, rest)
       | String c _ =>
           match digit c with
           | Some _ => let '(n, _, rest) := digits s 0 0 in Some (n, rest)
           | None => None
           end
       | EmptyString => None
       end;
  let '(int, s) := ip in
  fp ← match s with
       | String "." rest =>
           let '(n, count, rest') := digits rest int 0 in
           if (count =? 0)%Z then None else Some (n, count, rest')
       | _ => Some (int, 0%Z, s)
       end;
  let '(m, scale, s) := fp in
  ep ← match s with
       | String c rest =>
           if Ascii.eqb c "e" || Ascii.eqb c "E" then
             let '(esign, rest) := match rest with
                                   | String "-" r => (true, r)
                                   | String "+" r => (false, r)
                                   | _ => (false, rest)
                                   end in
             let '(n, count, rest') := digits rest 0 0 in
             if (count =? 0)%Z then None
             else Some (cond_Zopp esign (Z.of_N n), rest')
           else Some (0%Z, s)
       | EmptyString => Some (0%Z, s)
       end;
  let '(e, s) := ep in
  Some (Number sign m (e - scale), s).

Definition hexDigit (c : ascii) : option N :=
  let n := N_of_ascii c in
  if ((48 <=? n) && (n <=? 57))%N then Some (n - 48)%N
  else if ((97 <=? n) && (n <=? 102))%N then Some (n - 87)%N
  else if ((65 <=? n) && (n <=? 70))%N then Some (n - 55)%N
  else None.

(** Four hexadecimal digits after [\u]. *)
Definition hex4 (s : string) : option (N * string) :=
  match s with
  | String a (String b (String c (String d rest))) =>
      x ← hexDigit a; y ← hexDigit b; z ← hexDigit c; w ← hexDigit d;
      Some (((x * 16 + y) * 16 + z) * 16 + w, rest)%N
  | _ => None
  end.

Definition byte (n : N) : ascii := ascii_of_N n.

(** UTF-8 encoding of a code point. *)
Definition utf8 (r : N) : string :=
  (if r <? 128 then String (byte r) EmptyString
   else if r <? 2048 then
     String (byte (192 + r / 64)) (String (byte (128 + r mod 64)) EmptyString)
   else if r <? 65536 then
     String (byte (224 + r / 4096))
       (String (byte (128 + (r / 64) mod 64))
          (String (byte (128 + r mod 64)) EmptyString))
   else
     String (byte (240 + r / 262144))
       (String (byte (128 + (r / 4096) mod 64))
          (String (byte (128 + (r / 64) mod 64))
             (String (byte (128 + r mod 64)) EmptyString))))%N.

(** The text of a string literal after its opening quote.  A lone
    surrogate escape becomes U+FFFD. *)
Fixpoint parseString (fuel : nat) (s : string) : option (string * string) :=
  match fuel with
  | O => None
  | S fuel =>
      match s with
      | EmptyString => None
      | String c rest =>
          if Ascii.eqb c "034" then Some (EmptyString, rest)
          else if Ascii.eqb c "\" then
            match rest with
            | String e rest' =>
                let plain (b : N) :=
                  t ← parseString fuel rest';
                  Some (String (byte b) t.1, t.2) in
                if Ascii.eqb e "034" then plain 34%N
                else if Ascii.eqb e "\" then plain 92%N
                else if Ascii.eqb e "/" then plain 47%N
                else if Ascii.eqb e "b" then plain 8%N
                else if Ascii.eqb e "f" then plain 12%N
                else if Ascii.eqb e "n" then plain 10%N
                else if Ascii.eqb e "r" then plain 13%N
                else if Ascii.eqb e "t" then plain 9%N
                else if Ascii.eqb e "u" then
                  h ← hex4 rest';
                  let '(r, after) := h in
                  let lone :=
                    t ← parseString fuel after;
                    Some ((utf8 (if (55296 <=? r) && (r <? 57344)
                                 then 65533 else r)%N ++ t.1)%string, t.2) in
                  if ((55296 <=? r) && (r <? 56320))%N then
                    match after with
                    | String b1 (String b2 after') =>
                        if Ascii.eqb b1 "\" && Ascii.eqb b2 "u" then
                          match hex4 after' with
                          | Some (r2, after'') =>
                              if ((56320 <=? r2) && (r2 <? 57344))%N then
                                t ← parseString fuel after'';
                                Some ((utf8 (65536 + (r - 55296) * 1024
                                             + (r2 - 56320))%N ++ t.1)%string,
                                      t.2)
                              else lone
                          | None => None
                          end
                        else lone
                    | _ => lone
                    end
                  else lone
                else None
            | EmptyString => None
            end
          else if (N_of_ascii c <? 32)%N then None
          else t ← parseString fuel rest; Some (String c t.1, t.2)
      end
  end.

(** The rest of [s] after the literal [lit]. *)
Fixpoint expect (lit s : string) : option string :=
  match lit, s with
  | EmptyString, _ => Some s
  | String a lit', String b s' => if Ascii.eqb a b then expect lit' s' else None
  | String _ _, EmptyString => None
  end.

(** The deepest nesting of arrays and objects the scanner accepts. *)
Definition maxNestingDepth : N := 10000.

(** One value, with the space before it, inside [depth] arrays and objects;
    [parseElements] reads the rest of an array after [[], [parseMembers] the
    rest of an object after [{]. *)
Fixpoint parseValue (fuel : nat) (depth : N) (s : string)
  : option (value * string) :=
  match fuel with
  | O => None
  | S fuel =>
      match skip s with
      | EmptyString => None
      | String c rest =>
          if Ascii.eqb c "n" then r ← expect "ull" rest; Some (Null, r)
          else if Ascii.eqb c "t" then r ← expect "rue" rest; Some (Bool true, r)
          else if Ascii.eqb c "f" then r ← expect "alse" rest; Some (Bool false, r)
          else if Ascii.eqb c "034" then
            t ← parseString (S (String.length rest)) rest; Some (Str t.1, t.2)
          else if Ascii.eqb c "[" then
            if (maxNestingDepth <? depth + 1)%N then None
            else
              match skip rest with
              | String "]" r => Some (Arr [], r)
              | _ =>
                  t ← parseElements fuel (depth + 1) rest; Some (Arr t.1, t.2)
              end
          else if Ascii.eqb c "{" then
            if (maxNestingDepth <? depth + 1)%N then None
            else
              match skip rest with
              | String "}" r => Some (Obj [], r)
              | _ =>
                  t ← parseMembers fuel (depth + 1) rest; Some (Obj t.1, t.2)
              end
          else t ← parseNumber (String c rest); Some (Num t.1, t.2)
      end
  end
with parseElements (fuel : nat) (depth : N) (s : string)
     : option (list value * string) :=
  match fuel with
  | O => None
  | S fuel =>
      v ← parseValue fuel depth s;
      match skip v.2 with
      | String "]" r => Some ([v.1], r)
      | String "," r =>
          t ← parseElements fuel depth r; Some (v.1 :: t.1, t.2)
      | _ => None
      end
  end
with parseMembers (fuel : nat) (depth : N) (s : string)
     : option (list (string * value) * string) :=
  match fuel with
  | O => None
  | S fuel =>
      match skip s with
      | String "034" r =>
          k ← parseString (S (String.length r)) r;
          match skip k.2 with
          | String ":" r' =>
              v ← parseValue fuel depth r';
              match skip v.2 with
              | String "}" r'' => Some ([(k.1, v.1)], r'')
              | String "," r'' =>
                  t ← parseMembers fuel depth r'';
                  Some ((k.1, v.1) :: t.1, t.2)
              | _ => None
              end
          | _ => None
          end
      | _ => None
      end
  end.

(** The value a whole input denotes; [None] on a syntax error. *)
Definition parse (s : string) : option value :=
  t ← parseValue (S (String.length s)) 0 s;
  match skip t.2 with
  | EmptyString => Some t.1
  | String _ _ => None
  end.

(** Field names match member names up to case.  [foldName] maps a name to
    its folded form: upper case for ASCII letters, [S] for U+017F and [K]
    for U+212A, the two letters outside ASCII whose case folding is an
    ASCII letter. *)
Fixpoint foldName (s : string) : string :=
  match s with
  | EmptyString => EmptyString
  | String c rest =>
      let n := N_of_ascii c in
      if ((97 <=? n) && (n <=? 122))%N then
        String (ascii_of_N (n - 32)) (foldName rest)
      else
        match n, rest with
        | 197%N, String d rest' =>
            if (N_of_ascii d =? 191)%N then String "S" (foldName rest')
            else String c (foldName rest)
        | 226%N, String d (String e rest') =>
            if ((N_of_ascii d =? 132) && (N_of_ascii e =? 170))%N
            then String "K" (foldName rest')
            else String c (foldName rest)
        | _, _ => String c (foldName rest)
        end
  end.

Definition matches (field member : string) : bool :=
  String.eqb (foldName field) (foldName member).

Definition SyntaxError : Go.error := Go.errorString "json: invalid syntax".
Definition UnmarshalTypeError : Go.error :=
  Go.errorString "json: cannot unmarshal value into Go value".

End json.

(** ** Package [time] *)

Module time.
Local Open Scope Z_scope.

(** A [Duration] is an [int64] count of nanoseconds. *)
Definition Duration := Z.

(** A [Time], in seconds since the zero time [Time{}]. *)
Definition Time := Z.
Definition zeroTime : Time := 0.

Definition Second : Duration := 1000000000.

(** [Duration.Seconds]:
    [sec := d / Second; nsec := d % Second;
     return float64(sec) + float64(nsec)/1e9] *)
Definition Seconds (d : Duration) : Float64.float64 :=
  let sec := Z.quot d Second in
  let nsec := Z.rem d Second in
  Float64.add (Float64.of_int sec)
              (Float64.div (Float64.of_int nsec) (Float64.of_decimal false 1 9)).

End time.

(** ** Package [net/http] *)

Module http.
Local Open Scope Z_scope.

Definition StatusOK : Z := 200.
Definition StatusBadRequest : Z := 400.

(** [http.Header] and [url.Values]: the values of each key, in order.
    Keys are kept as the caller writes them. *)
Definition Values := gmap string (list string).

Definition Set_ (h : Values) (key value : string) : Values :=
  <[key := [value]]> h.

Definition Add (h : Values) (key value : string) : Values :=
  <[key := default [] (h !! key) ++ [value]]> h.

(** A request: [Query] is [URL.RawQuery] in parsed form, what
    [URL.Query()] reads and [Values.Encode] writes. *)
Record Request := {
  Method : string;
  URL : string;
  Header : Values;
  Query : Values;
}.

Definition withHeader (h : Values) (r : Request) : Request :=
  {| Method := Method r; URL := URL r; Header := h; Query := Query r |}.

Definition withQuery (q : Values) (r : Request) : Request :=
  {| Method := Method r; URL := URL r; Header := Header r; Query := q |}.

(** A response: its status, and what [ioutil.ReadAll] gets from its
    body. *)
Record Response := {
  StatusCode : Z;
  Body : string;
  ReadErr : option Go.error;
}.

Definition ReadAll (r : Response) : string * option Go.error :=
  (Body r, ReadErr r).

End http.

(** ** [flaggerv1.MetricTemplateProvider]: the fields the providers read *)

Module flaggerv1.

Record MetricTemplateProvider := {
  Type_ : string;
  Address : string;
}.

End flaggerv1.

(** ** datadog.go *)

Module datadog.
Import Go flaggerv1.
Local Open Scope Z_scope.

Definition datadogDefaultHost : string := "https://api.datadoghq.com".

Definition datadogMetricsQueryPath : string := "/api/v1/query".
Definition datadogAPIKeyValidationPath : string := "/api/v1/validate".

Definition datadogAPIKeySecretKey : string := "datadog_api_key".
Definition datadogAPIKeyHeaderKey : string := "DD-API-KEY".

Definition datadogApplicationKeySecretKey : string := "datadog_application_key".
Definition datadogApplicationKeyHeaderKey : string := "DD-APPLICATION-KEY".

Definition datadogFromDeltaMultiplierOnMetricInterval : Z := 10.

Record datadogProvider := {
  metricsQueryEndpoint : string;
  apiKeyValidationEndpoint : string;
  timeout : time.Duration;
  apiKey : string;
  applicationKey : string;
  fromDelta : Z;
}.

Definition withApiKey (k : string) (dd : datadogProvider) : datadogProvider :=
  {| metricsQueryEndpoint := metricsQueryEndpoint dd;
     apiKeyValidationEndpoint := apiKeyValidationEndpoint dd;
     timeout := timeout dd;
     apiKey := k;
     applicationKey := applicationKey dd;
     fromDelta := fromDelta dd |}.

Definition withApplicationKey (k : string) (dd : datadogProvider)
  : datadogProvider :=
  {| metricsQueryEndpoint := metricsQueryEndpoint dd;
     apiKeyValidationEndpoint := apiKeyValidationEndpoint dd;
     timeout := timeout dd;
     apiKey := apiKey dd;
     applicationKey := k;
     fromDelta := fromDelta dd |}.

Definition withFromDelta (d : Z) (dd : datadogProvider) : datadogProvider :=
  {| metricsQueryEndpoint := metricsQueryEndpoint dd;
     apiKeyValidationEndpoint := apiKeyValidationEndpoint dd;
     timeout := timeout dd;
     apiKey := apiKey dd;
     applicationKey := applicationKey dd;
     fromDelta := d |}.

(** [struct { Pointlist [][]float64 `json:"pointlist"` }] *)
Record datadogSeries := {
  Pointlist : list (list Float64.float64);
}.

Record datadogResponse := {
  Series : list datadogSeries;
}.

(** *** [json.Unmarshal] into a [datadogResponse]

    Each member that matches a field is decoded into the value the field
    holds at that time, so a member that comes a second time is decoded into
    what the first one left:

    - [null] leaves a struct or a number as it is and makes a slice [nil];
    - an object changes the fields its members match and no other;
    - an array is decoded element by element into the elements of the slice
      and, past its length, into what its backing array holds there (an
      element of an earlier, longer content of the slice, or zero); the
      slice then has the length of the array; an empty array makes a fresh
      empty slice;
    - a value of another kind than the target, or a number that no
      [float64] holds, is an [UnmarshalTypeError];
    - members that match no field are skipped. *)

(** A slice while it is decoded into: its elements, and the elements its
    backing array holds after them. *)
Record slice (A : Type) := Slice {
  elements : list A;
  spare : list A;
}.
Arguments Slice {A} elements spare.
Arguments elements {A} s.
Arguments spare {A} s.

Definition nilSlice {A} : slice A := Slice [] [].

(** The values of an array, in order, into the elements of [backing]; past
    the end of [backing], into [zero]. *)
Fixpoint decodeElements {A} (zero : A) (decode : json.value -> A -> option A)
    (values : list json.value) (backing : list A) : option (list A) :=
  match values with
  | [] => Some []
  | v :: values' =>
      a ← decode v (default zero (head backing));
      rest ← decodeElements zero decode values' (tail backing);
      Some (a :: rest)
  end.

Definition decodeArray {A} (zero : A) (decode : json.value -> A -> option A)
    (values : list json.value) (s : slice A) : option (slice A) :=
  match values with
  | [] => Some nilSlice
  | _ =>
      let backing := elements s ++ spare s in
      l ← decodeElements zero decode values backing;
      Some (Slice l (drop (length values) backing))
  end.

Definition decodeFloat (v : json.value) (old : Float64.float64)
  : option Float64.float64 :=
  match v with
  | json.Null => Some old
  | json.Num n =>
      match Float64.of_decimal (json.neg n) (json.mantissa n) (json.exp10 n) with
      | S754_infinity _ | S754_nan => None
      | f => Some f
      end
  | _ => None
  end.

Definition decodeFloats (v : json.value) (old : slice Float64.float64)
  : option (slice Float64.float64) :=
  match v with
  | json.Null => Some nilSlice
  | json.Arr values => decodeArray Float64.zero decodeFloat values old
  | _ => None
  end.

Definition decodePointlist (v : json.value)
    (old : slice (slice Float64.float64))
  : option (slice (slice Float64.float64)) :=
  match v with
  | json.Null => Some nilSlice
  | json.Arr values => decodeArray nilSlice decodeFloats values old
  | _ => None
  end.

(** The members of an object, in order, into the one field [name] of a
    struct whose field holds [field] so far. *)
Fixpoint decodeField {A} (name : string) (decode : json.value -> A -> option A)
    (members : list (string * json.value)) (field : A) : option A :=
  match members with
  | [] => Some field
  | (k, v) :: rest =>
      if json.matches name k
      then a ← decode v field; decodeField name decode rest a
      else decodeField name decode rest field
  end.

(** A series while it is decoded into: its one field. *)
Definition decodeSeries (v : json.value) (old : slice (slice Float64.float64))
  : option (slice (slice Float64.float64)) :=
  match v with
  | json.Null => Some old
  | json.Obj members => decodeField "pointlist" decodePointlist members old
  | _ => None
  end.

Definition decodeSeriesList (v : json.value)
    (old : slice (slice (slice Float64.float64)))
  : option (slice (slice (slice Float64.float64))) :=
  match v with
  | json.Null => Some nilSlice
  | json.Arr values => decodeArray nilSlice decodeSeries values old
  | _ => None
  end.

(** The response after decoding: the elements of each slice. *)
Definition stored (series : slice (slice (slice Float64.float64)))
  : datadogResponse :=
  {| Series :=
       (fun points => {| Pointlist := elements <$> elements points |})
         <$> elements series |}.

Definition decodeResponse (v : json.value) : option datadogResponse :=
  match v with
  | json.Null => Some (stored nilSlice)
  | json.Obj members =>
      stored <$> decodeField "Series" decodeSeriesList members nilSlice
  | _ => None
  end.

(** [json.Unmarshal(b, &res)] for a zero [res]. *)
Definition Unmarshal (b : string) : datadogResponse + error :=
  match json.parse b with
  | None => inr json.SyntaxError
  | Some v =>
      match decodeResponse v with
      | None => inr json.UnmarshalTypeError
      | Some res => inl res
      end
  end.

(** *** Construction *)

Section Construction.

(** [time.ParseDuration] *)
Variable ParseDuration : string -> time.Duration + error.

Definition newDatadogProvider (metricInterval : string)
    (provider : MetricTemplateProvider)
    (credentials : gmap string (list Byte.byte))
  : option datadogProvider * option error :=
  let address := Address provider in
  let address := if String.eqb address EmptyString then datadogDefaultHost
                 else address in
  let dd := {| timeout := 5 * time.Second;
               metricsQueryEndpoint := address +:+ datadogMetricsQueryPath;
               apiKeyValidationEndpoint :=
                 address +:+ datadogAPIKeyValidationPath;
               apiKey := EmptyString;
               applicationKey := EmptyString;
               fromDelta := 0 |} in
  match credentials !! datadogAPIKeySecretKey with
  | None =>
      (None,
       Some (Errorf "datadog credentials does not contain datadog_api_key"))
  | Some b =>
      let dd := withApiKey (string_of_bytes b) dd in
      match credentials !! datadogApplicationKeySecretKey with
      | None =>
          (None,
           Some (Errorf
             "datadog credentials does not contain datadog_application_key"))
      | Some b =>
          let dd := withApplicationKey (string_of_bytes b) dd in
          match ParseDuration metricInterval with
          | inr err =>
              (None,
               Some (Errorf ("error parsing metric interval: "
                             +:+ Error err)))
          | inl md =>
              let dd :=
                withFromDelta
                  (Float64.to_int64
                     (Float64.mul
                        (Float64.of_int
                           datadogFromDeltaMultiplierOnMetricInterval)
                        (time.Seconds md))) dd in
              (Some dd, None)
          end
      end
  end.

End Construction.

(** *** Queries *)

Section Queries.

(** [http.NewRequest(method, url, nil)] *)
Variable NewRequest : string -> string -> http.Request + error.
(** [http.DefaultClient.Do] on the request, under a context with the
    given timeout. *)
Variable Do : http.Request -> time.Duration -> http.Response + error.
(** [time.Now().Unix()] *)
Variable Now : Z.

Definition RunQuery (p : datadogProvider) (query : string)
  : outcome (Float64.float64 * option error) :=
  match NewRequest "GET" (metricsQueryEndpoint p) with
  | inr err =>
      mret (Float64.zero,
            Some (Errorf ("error http.NewRequest: " +:+ Error err)))
  | inl req =>
      let h := http.Set_ (http.Header req) datadogAPIKeyHeaderKey (apiKey p) in
      let h := http.Set_ h datadogApplicationKeyHeaderKey (applicationKey p) in
      let req := http.withHeader h req in
      let now := Now in
      let q := http.Query req in
      let q := http.Add q "query" query in
      let q := http.Add q "from" (FormatInt (int64 (now - fromDelta p))) in
      let q := http.Add q "to" (FormatInt now) in
      let req := http.withQuery q req in
      match Do req (timeout p) with
      | inr err => mret (Float64.zero, Some err)
      | inl r =>
          match http.ReadAll r with
          | (b, Some err) =>
              mret (Float64.zero,
                    Some (Errorf ("error reading body: " +:+ Error err)))
          | (b, None) =>
              if negb (http.StatusCode r =? http.StatusOK) then
                mret (Float64.zero,
                      Some (Errorf ("error response: " +:+ b)))
              else
                match Unmarshal b with
                | inr err =>
                    mret (Float64.zero,
                          Some (Errorf ("error unmarshaling result: "
                                        +:+ Error err +:+ ", '" +:+ b
                                        +:+ "'")))
                | inl res =>
                    if len (Series res) <? 1 then
                      mret (Float64.zero,
                            Some (Errorf ("no values found in response: "
                                          +:+ b)))
                    else
                      s ← index (Series res) 0;
                      vs ← index (Pointlist s) (len (Pointlist s) - 1);
                      if len vs <? 1 then
                        mret (Float64.zero,
                              Some (Errorf ("no values found in response: "
                                            +:+ b)))
                      else
                        v ← index vs 1;
                        mret (v, None)
                end
          end
      end
  end.

Definition IsOnline (p : datadogProvider) : outcome (bool * option error) :=
  match NewRequest "GET" (apiKeyValidationEndpoint p) with
  | inr err =>
      mret (false, Some (Errorf ("error http.NewRequest: " +:+ Error err)))
  | inl req =>
      let h := http.Add (http.Header req) datadogAPIKeyHeaderKey (apiKey p) in
      let h := http.Add h datadogApplicationKeyHeaderKey (applicationKey p) in
      let req := http.withHeader h req in
      match Do req (timeout p) with
      | inr err => mret (false, Some err)
      | inl r =>
          match http.ReadAll r with
          | (b, Some err) =>
              mret (false,
                    Some (Errorf ("error reading body: " +:+ Error err)))
          | (b, None) =>
              if negb (http.StatusCode r =? http.StatusOK) then
                mret (false, Some (Errorf ("error response: " +:+ b)))
              else mret (true, None)
          end
      end
  end.

End Queries.

(** The transport that answers every request with the status [status] and
    the body [body]. *)
Definition answers (status : Z) (body : string)
  : http.Request -> time.Duration -> http.Response + error :=
  fun _ _ => inl {| http.StatusCode := status;
                    http.Body := body;
                    http.ReadErr := None |}.

(** [RunQuery] when [http.NewRequest] yields [req] and the backend answers
    with [status] and [body]. *)
Definition runOn (req : http.Request) (now : Z) (p : datadogProvider)
    (query : string) (status : Z) (body : string)
  : outcome (Float64.float64 * option error) :=
  RunQuery (fun _ _ => inl req) (answers status body) now p query.

(** The request [RunQuery] hands to the transport, made from the request
    [req] of [http.NewRequest]: the two key headers are set, and the
    parameters [query], [from] and [to] are added. *)
Definition queryRequest (now : Z) (p : datadogProvider) (query : string)
    (req : http.Request) : http.Request :=
  let h := http.Set_ (http.Header req) datadogAPIKeyHeaderKey (apiKey p) in
  let h := http.Set_ h datadogApplicationKeyHeaderKey (applicationKey p) in
  let req := http.withHeader h req in
  let q := http.Query req in
  let q := http.Add q "query" query in
  let q := http.Add q "from" (FormatInt (int64 (now - fromDelta p))) in
  let q := http.Add q "to" (FormatInt now) in
  http.withQuery q req.

(** The request [IsOnline] hands to the transport: the two key headers are
    added. *)
Definition validationRequest (p : datadogProvider) (req : http.Request)
  : http.Request :=
  let h := http.Add (http.Header req) datadogAPIKeyHeaderKey (apiKey p) in
  let h := http.Add h datadogApplicationKeyHeaderKey (applicationKey p) in
  http.withHeader h req.

End datadog.

(** ** The CloudWatch client *)

Module aws.

(** [aws.Config]: the fields the provider sets. *)
Record Config := {
  Region : string;
  MaxRetries : Z;
  Endpoint : string;
}.

(** [aws.Float64Value]: the value a pointer refers to, zero for [nil]. *)
Definition Float64Value (v : option Float64.float64) : Float64.float64 :=
  default Float64.zero v.

End aws.

Module cloudwatch.
Import Go flaggerv1.
Local Open Scope Z_scope.

Definition cloudWatchMaxRetries : Z := 3.

(** [region], as [newCloudWatchProvider] computes it from the address. *)
Definition region (address : string) : string :=
  let region := strings.TrimLeft address "monitoring." in
  strings.TrimRight region ".amazonaws.com".

(** The configuration [newCloudWatchProvider] opens its session with. *)
Definition sessionConfig (provider : MetricTemplateProvider) : aws.Config :=
  {| aws.Region := region (Address provider);
     aws.MaxRetries := cloudWatchMaxRetries;
     aws.Endpoint := Address provider |}.

(** [cloudwatch.MetricDataResult] and [cloudwatch.GetMetricDataOutput]:
    the fields the provider reads. *)
Record MetricDataResult := {
  Values : list (option Float64.float64);
}.

Record GetMetricDataOutput := {
  MetricDataResults : list (option MetricDataResult);
}.

Section Provider.

(** [*cloudwatch.MetricDataQuery] and [*session.Session], types of the
    SDK. *)
Variable MetricDataQuery : Type.
Variable Session : Type.

Record GetMetricDataInput := {
  EndTime : option time.Time;
  MaxDatapoints : option Z;
  StartTime : option time.Time;
  MetricDataQueries : list MetricDataQuery;
}.

(** [cloudWatchClient]: the one method of the interface. *)
Record cloudWatchClient := {
  GetMetricData :
    GetMetricDataInput -> option GetMetricDataOutput * option error;
}.

Record cloudWatchProvider := {
  client : cloudWatchClient;
}.

(** [session.NewSession] *)
Variable NewSession : aws.Config -> option Session * option error.
(** [cloudwatch.New], which may panic on the session it gets. *)
Variable New : option Session -> outcome cloudWatchClient.
(** [json.Unmarshal] into a [[]*cloudwatch.MetricDataQuery] *)
Variable Unmarshal : string -> list MetricDataQuery + error.
(** [GetMetricDataOutput.String] *)
Variable String_ : GetMetricDataOutput -> string.

Definition newCloudWatchProvider (provider : MetricTemplateProvider)
  : outcome (option cloudWatchProvider * option error) :=
  let '(sess, err) := NewSession (sessionConfig provider) in
  c ← New sess;
  mret (Some {| client := c |}, err).

(** [RunQuery], with the requests it sends to the backend, in order. *)
Definition RunQuery (p : cloudWatchProvider) (query : string)
  : list GetMetricDataInput * outcome (Float64.float64 * option error) :=
  match Unmarshal query with
  | inr err =>
      ([], mret (Float64.zero,
                 Some (Errorf ("error unmarshaling query: " +:+ Error err))))
  | inl cq =>
      let input := {| EndTime := None;
                      MaxDatapoints := Some 1;
                      StartTime := None;
                      MetricDataQueries := cq |} in
      ([input],
       match GetMetricData (client p) input with
       | (_, Some err) =>
           mret (Float64.zero,
                 Some (Errorf ("error requesting cloudwatch: "
                               +:+ Error err)))
       | (res, None) =>
           res ← deref res;
           let mr := MetricDataResults res in
           if len mr <? 1 then
             mret (Float64.zero,
                   Some (Errorf ("no values found in response: "
                                 +:+ String_ res)))
           else
             r ← index (MetricDataResults res) 0;
             r ← deref r;
             let vs := Values r in
             if len vs <? 1 then
               mret (Float64.zero,
                     Some (Errorf ("no values found in response: "
                                   +:+ String_ res)))
             else
               v ← index vs 0;
               mret (aws.Float64Value v, None)
       end)
  end.

(** [IsOnline], with the requests it sends to the backend. *)
Definition IsOnline (p : cloudWatchProvider)
  : list GetMetricDataInput * outcome (bool * option error) :=
  let input := {| EndTime := Some time.zeroTime;
                  MaxDatapoints := None;
                  StartTime := Some time.zeroTime;
                  MetricDataQueries := [] |} in
  ([input],
   match GetMetricData (client p) input with
   | (_, None) => mret (true, None)
   | (_, Some err) =>
       match err with
       | requestFailure _ statusCode =>
           if negb (statusCode =? http.StatusBadRequest) then
             mret (false,
                   Some (Errorf ("unexpected status code: " +:+ Error err)))
           else mret (true, None)
       | _ =>
           mret (false, Some (Errorf ("unexpected error: " +:+ Error err)))
       end
   end).

(** The request of [RunQuery] for the decoded queries [cq], and the probe
    of [IsOnline]. *)
Definition metricDataInput (cq : list MetricDataQuery) : GetMetricDataInput :=
  {| EndTime := None;
     MaxDatapoints := Some 1;
     StartTime := None;
     MetricDataQueries := cq |}.

Definition probe : GetMetricDataInput :=
  {| EndTime := Some time.zeroTime;
     MaxDatapoints := None;
     StartTime := Some time.zeroTime;
     MetricDataQueries := [] |}.

End Provider.

Arguments EndTime {_} _.
Arguments MaxDatapoints {_} _.
Arguments StartTime {_} _.
Arguments MetricDataQueries {_} _.
Arguments GetMetricData {_} _ _.
Arguments client {_} _.
Arguments metricDataInput {_} _.
Arguments probe {_}.

End cloudwatch.

(** ** The factory *)

Module factory.
Import Go flaggerv1.

Section Factory.

(** The Prometheus client and its constructor are outside these files. *)
Variable PrometheusProvider : Type.
Variable newPrometheusProvider :
  MetricTemplateProvider -> gmap string (list Byte.byte) ->
  option PrometheusProvider * option error.

(** So are the two constructors the older revision of [Factory.Provider]
    calls, [NewPrometheusProvider] and [NewDatadogProvider].  They are taken
    with the result types of [newPrometheusProvider] and
    [newDatadogProvider], so that what the two revisions return can be
    compared; nothing else is known of them. *)
Variable NewPrometheusProvider :
  MetricTemplateProvider -> gmap string (list Byte.byte) ->
  option PrometheusProvider * option error.
Variable NewDatadogProvider :
  string -> MetricTemplateProvider -> gmap string (list Byte.byte) ->
  option datadog.datadogProvider * option error.

Variable ParseDuration : string -> time.Duration + error.

Variable MetricDataQuery : Type.
Variable Session : Type.
Variable NewSession : aws.Config -> option Session * option error.
Variable New :
  option Session -> outcome (cloudwatch.cloudWatchClient MetricDataQuery).

(** An [Interface] value: the dynamic type of the client and the
    pointer, which may be [nil]. *)
Inductive Interface :=
| prometheusClient (p : option PrometheusProvider)
| datadogClient (p : option datadog.datadogProvider)
| cloudWatchClient
    (p : option (cloudwatch.cloudWatchProvider MetricDataQuery)).

(** The backend a client is for: the dynamic type of an [Interface]
    value. *)
Inductive kind := Prometheus | Datadog | CloudWatch.

Definition clientKind (i : Interface) : kind :=
  match i with
  | prometheusClient _ => Prometheus
  | datadogClient _ => Datadog
  | cloudWatchClient _ => CloudWatch
  end.

(** The kind of the client of a result; none when the call panics. *)
Definition resultKind (r : outcome (Interface * option error))
  : option kind :=
  match r with
  | Returns (i, _) => Some (clientKind i)
  | Panics _ => None
  end.

(** The older revision of [Factory.Provider], without CloudWatch. *)
Definition Provider_v1 (metricInterval : string)
    (provider : MetricTemplateProvider)
    (credentials : gmap string (list Byte.byte))
  : outcome (Interface * option error) :=
  if String.eqb (Type_ provider) "prometheus" then
    let '(p, err) := NewPrometheusProvider provider credentials in
    mret (prometheusClient p, err)
  else if String.eqb (Type_ provider) "datadog" then
    let '(p, err) := NewDatadogProvider metricInterval provider credentials in
    mret (datadogClient p, err)
  else
    let '(p, err) := NewPrometheusProvider provider credentials in
    mret (prometheusClient p, err).

(** The revision of [Factory.Provider] with CloudWatch. *)
Definition Provider (metricInterval : string)
    (provider : MetricTemplateProvider)
    (credentials : gmap string (list Byte.byte))
  : outcome (Interface * option error) :=
  if String.eqb (Type_ provider) "prometheus" then
    let '(p, err) := newPrometheusProvider provider credentials in
    mret (prometheusClient p, err)
  else if String.eqb (Type_ provider) "datadog" then
    let '(p, err) :=
      datadog.newDatadogProvider ParseDuration metricInterval provider
        credentials in
    mret (datadogClient p, err)
  else if String.eqb (Type_ provider) "cloudwatch" then
    r ← cloudwatch.newCloudWatchProvider MetricDataQuery Session
          NewSession New provider;
    mret (cloudWatchClient r.1, r.2)
  else
    let '(p, err) := newPrometheusProvider provider credentials in
    mret (prometheusClient p, err).

(** What [Provider] returns from each branch: the result of the
    constructor, its client as an [Interface] value. *)
Definition viaPrometheus (provider : MetricTemplateProvider)
    (credentials : gmap string (list Byte.byte))
  : outcome (Interface * option error) :=
  let r := newPrometheusProvider provider credentials in
  Returns (prometheusClient r.1, r.2).

Definition viaDatadog (metricInterval : string)
    (provider : MetricTemplateProvider)
    (credentials : gmap string (list Byte.byte))
  : outcome (Interface * option error) :=
  let r := datadog.newDatadogProvider ParseDuration metricInterval provider
             credentials in
  Returns (datadogClient r.1, r.2).

Definition viaCloudWatch (provider : MetricTemplateProvider)
  : outcome (Interface * option error) :=
  match cloudwatch.newCloudWatchProvider MetricDataQuery Session NewSession
          New provider with
  | Returns r => Returns (cloudWatchClient r.1, r.2)
  | Panics msg => Panics msg
  end.

(** The same for the two branches of the older revision. *)
Definition viaPrometheus_v1 (provider : MetricTemplateProvider)
    (credentials : gmap string (list Byte.byte))
  : outcome (Interface * option error) :=
  let r := NewPrometheusProvider provider credentials in
  Returns (prometheusClient r.1, r.2).

Definition viaDatadog_v1 (metricInterval : string)
    (provider : MetricTemplateProvider)
    (credentials : gmap string (list Byte.byte))
  : outcome (Interface * option error) :=
  let r := NewDatadogProvider metricInterval provider credentials in
  Returns (datadogClient r.1, r.2).

End Factory.

Arguments clientKind {PrometheusProvider MetricDataQuery} i.
Arguments resultKind {PrometheusProvider MetricDataQuery} r.

End factory.

(** ** A sample environment

    One behaviour of the packages outside the repository, for the examples:
    the answers of [time.ParseDuration] on three intervals, a credentials
    map, an AWS session that opens and one that does not, and a CloudWatch
    backend. *)

Module sample.
Import Go.
Local Open Scope Z_scope.

Definition ParseDuration (s : string) : time.Duration + error :=
  if String.eqb s "150ms" then inl 150000000
  else if String.eqb s "90s" then inl 90000000000
  else if String.eqb s "1m" then inl 60000000000
  else inr (errorString (quoted "time: invalid duration '" +:+ s
                         +:+ quoted "'")).

Definition credentials : gmap string (list Byte.byte) :=
  <[datadog.datadogAPIKeySecretKey := [Byte.x6b; Byte.x31]]>
    (<[datadog.datadogApplicationKeySecretKey := [Byte.x6b; Byte.x32]]> ∅).

Definition datadogConfig : flaggerv1.MetricTemplateProvider :=
  {| flaggerv1.Type_ := "datadog"; flaggerv1.Address := EmptyString |}.

Definition cloudWatchConfig : flaggerv1.MetricTemplateProvider :=
  {| flaggerv1.Type_ := "cloudwatch";
     flaggerv1.Address := "monitoring.us-east-1.amazonaws.com" |}.

(** The Prometheus client is a black box here. *)
Definition PrometheusProvider : Type := unit.
Definition newPrometheusProvider (provider : flaggerv1.MetricTemplateProvider)
    (credentials : gmap string (list Byte.byte))
  : option PrometheusProvider * option error :=
  (Some tt, None).

(** The constructors of the older revision: the Prometheus one as above,
    the Datadog one as [newDatadogProvider]. *)
Definition NewPrometheusProvider
    (provider : flaggerv1.MetricTemplateProvider)
    (credentials : gmap string (list Byte.byte))
  : option PrometheusProvider * option error :=
  (Some tt, None).

Definition NewDatadogProvider (metricInterval : string)
    (provider : flaggerv1.MetricTemplateProvider)
    (credentials : gmap string (list Byte.byte))
  : option datadog.datadogProvider * option error :=
  datadog.newDatadogProvider ParseDuration metricInterval provider
    credentials.

(** Queries as the JSON values they are written as. *)
Definition MetricDataQuery : Type := json.value.

Definition Unmarshal (query : string) : list MetricDataQuery + error :=
  match json.parse query with
  | None => inr json.SyntaxError
  | Some json.Null => inl []
  | Some (json.Arr elements) => inl elements
  | Some _ => inr json.UnmarshalTypeError
  end.

Definition String_ (res : cloudwatch.GetMetricDataOutput) : string :=
  "{ MetricDataResults: ... }".

(** A backend that rejects a request without queries with status 400 and
    answers any other request with the one value 42.5. *)
Definition backend : cloudwatch.cloudWatchClient MetricDataQuery :=
  {| cloudwatch.GetMetricData input :=
       match cloudwatch.MetricDataQueries input with
       | [] =>
           (Some {| cloudwatch.MetricDataResults := [] |},
            Some (requestFailure
                    "ValidationError: MetricDataQueries must not be empty"
                    400))
       | _ =>
           (Some {| cloudwatch.MetricDataResults :=
                      [Some {| cloudwatch.Values :=
                                 [Some (Float64.of_decimal false 425 (-1))] |}]
                 |},
            None)
       end |}.

(** A backend that answers every request with the error [err]. *)
Definition failing (err : error) : cloudwatch.cloudWatchClient MetricDataQuery :=
  {| cloudwatch.GetMetricData _ := (None, Some err) |}.

(** A backend that accepts every request and has no result. *)
Definition silent : cloudwatch.cloudWatchClient MetricDataQuery :=
  {| cloudwatch.GetMetricData _ :=
       (Some {| cloudwatch.MetricDataResults := [] |}, None) |}.

Definition Session : Type := unit.

Definition NewSession (cfg : aws.Config) : option Session * option error :=
  (Some tt, None).

(** A session that does not open, as when [AWS_CA_BUNDLE] names a file
    that is missing. *)
Definition NewSession_fails (cfg : aws.Config)
  : option Session * option error :=
  (None, Some (errorString "LoadCustomCABundleError: unable to load custom CA bundle")).

(** [cloudwatch.New] dereferences its session. *)
Definition New (sess : option Session)
  : outcome (cloudwatch.cloudWatchClient MetricDataQuery) :=
  _ ← deref sess; mret backend.

(** The request [http.NewRequest] makes for the query endpoint, and a
    client as [newDatadogProvider] builds it from the sample credentials and
    the interval of one minute. *)
Definition request : http.Request :=
  {| http.Method := "GET";
     http.URL := "https://api.datadoghq.com/api/v1/query";
     http.Header := ∅;
     http.Query := ∅ |}.

Definition NewRequest (method url : string) : http.Request + error :=
  inl {| http.Method := method; http.URL := url;
         http.Header := ∅; http.Query := ∅ |}.

Definition provider : datadog.datadogProvider :=
  {| datadog.metricsQueryEndpoint := "https://api.datadoghq.com/api/v1/query";
     datadog.apiKeyValidationEndpoint :=
       "https://api.datadoghq.com/api/v1/validate";
     datadog.timeout := 5000000000;
     datadog.apiKey := "k1";
     datadog.applicationKey := "k2";
     datadog.fromDelta := 600 |}.

End sample.

(** * Properties *)

(** ** Slices *)

Lemma len_cons_ltb {A} (x : A) (l : list A) : (Go.len (x :: l) <? 1)%Z = false.
Proof. apply Z.ltb_ge. unfold Go.len. simpl length. lia. Qed.

Lemma len_nil_ltb {A} : (Go.len (@nil A) <? 1)%Z = true.
Proof. reflexivity. Qed.

Lemma index_0 {A} (x : A) (l : list A) : Go.index (x :: l) 0 = Go.Returns x.
Proof. reflexivity. Qed.

(** One step of a Go function body: the guards on the length of a slice,
    the first element of a slice, and the sequencing of calls. *)
Ltac go_step :=
  repeat (rewrite ?len_cons_ltb, ?len_nil_ltb, ?index_0;
          cbn [mbind mret outcome_bind outcome_ret Go.bind Go.deref fst snd]).

(** ** float64: the integers below [2^53]

    Conversion from an integer, multiplication and conversion back are exact
    as long as the integers stay below [2^53] in absolute value. *)

Section Float64Exact.
Import Float64.
Local Open Scope Z_scope.

Lemma digits2_pos_size (p : positive) : digits2_pos p = Pos.size p.
Proof. induction p; simpl; congruence. Qed.

Lemma Zdigits2_log2 (p : positive) : Zdigits2 (Zpos p) = Z.log2 (Zpos p) + 1.
Proof.
  unfold Zdigits2. rewrite digits2_pos_size.
  destruct p; simpl; rewrite ?Pos2Z.inj_succ; lia.
Qed.

Lemma iter_pos_nat {A} (f : A -> A) (p : positive) (x : A) :
  SpecFloat.iter_pos f p x = Nat.iter (Pos.to_nat p) f x.
Proof.
  revert x. induction p as [p IH|p IH|]; intros x; cbn [SpecFloat.iter_pos].
  - rewrite !IH, Pos2Nat.inj_xI.
    replace (S (2 * Pos.to_nat p))%nat
      with (Pos.to_nat p + S (Pos.to_nat p))%nat by lia.
    rewrite Nat.iter_add. f_equal. by rewrite Nat.iter_succ_r.
  - rewrite !IH, Pos2Nat.inj_xO.
    replace (2 * Pos.to_nat p)%nat with (Pos.to_nat p + Pos.to_nat p)%nat by lia.
    by rewrite Nat.iter_add.
  - reflexivity.
Qed.

Lemma shr_1_double (z : Z) :
  shr_1 {| shr_m := 2 * z; shr_r := false; shr_s := false |}
  = {| shr_m := z; shr_r := false; shr_s := false |}.
Proof. destruct z; reflexivity. Qed.

Lemma shr_iter_exact (n : nat) (z : Z) :
  Nat.iter n shr_1 {| shr_m := z * 2 ^ Z.of_nat n; shr_r := false; shr_s := false |}
  = {| shr_m := z; shr_r := false; shr_s := false |}.
Proof.
  revert z. induction n as [|n IH]; intros z.
  - simpl. by rewrite Z.mul_1_r.
  - rewrite Nat.iter_succ_r, Nat2Z.inj_succ, Z.pow_succ_r by lia.
    replace (z * (2 * 2 ^ Z.of_nat n)) with (2 * (z * 2 ^ Z.of_nat n)) by lia.
    rewrite shr_1_double. apply IH.
Qed.

Lemma fexp_normal (x : Z) : -1021 <= x -> fexp prec emax x = x - 53.
Proof. unfold fexp, emin, prec, emax. lia. Qed.

(** Rounding a value that needs no rounding: [q] has 53 bits and the
    mantissa is [q * 2^n]. *)
Lemma shr_fexp_exact (m q : positive) (e n : Z) :
  0 <= n -> Zpos m = Zpos q * 2 ^ n -> Z.log2 (Zpos q) = 52 ->
  -1074 <= e + n ->
  shr_fexp prec emax (Zpos m) e loc_Exact
  = ({| shr_m := Zpos q; shr_r := false; shr_s := false |}, e + n).
Proof.
  intros Hn Hm Hq He. unfold shr_fexp.
  rewrite Zdigits2_log2, Hm, Z.log2_mul_pow2, Hq by lia.
  rewrite fexp_normal by lia.
  replace (n + 52 + 1 + e - 53 - e) with n by lia.
  unfold shr, shr_record_of_loc. destruct n as [|p|p]; [| |lia].
  - rewrite Z.mul_1_r, Z.add_0_r. reflexivity.
  - rewrite iter_pos_nat. f_equal.
    rewrite <- (positive_nat_Z p). apply shr_iter_exact.
Qed.

Lemma binary_round_aux_exact (sx : bool) (m q : positive) (e n : Z) :
  0 <= n -> Zpos m = Zpos q * 2 ^ n -> Z.log2 (Zpos q) = 52 ->
  -1074 <= e + n <= 971 ->
  binary_round_aux prec emax sx (Zpos m) e loc_Exact = S754_finite sx q (e + n).
Proof.
  intros Hn Hm Hq He. unfold binary_round_aux.
  rewrite (shr_fexp_exact m q e n) by lia.
  cbn [shr_m loc_of_shr_record round_nearest_even].
  rewrite (shr_fexp_exact q q (e + n) 0) by lia.
  cbn [shr_m]. rewrite Z.add_0_r.
  replace (e + n <=? emax - prec) with true; [reflexivity|].
  symmetry. apply Z.leb_le. unfold emax, prec. lia.
Qed.

Lemma iter_xO (m d : positive) : Zpos (Pos.iter xO m d) = Zpos m * 2 ^ Zpos d.
Proof.
  induction d as [|d IH] using Pos.peano_ind.
  - simpl. lia.
  - rewrite Pos.iter_succ, Pos2Z.inj_xO, IH, Pos2Z.inj_succ, Z.pow_succ_r; lia.
Qed.

Lemma binary_round_small (s : bool) (m : positive) :
  Zpos m < 2 ^ 53 -> binary_round prec emax s m 0 = exact s m.
Proof.
  intros Hm.
  assert (Hl : 0 <= Z.log2 (Zpos m) <= 52).
  { split; [apply Z.log2_nonneg|]. 
    assert (Z.log2 (Zpos m) < 53); [|lia]. apply Z.log2_lt_pow2; lia. }
  unfold binary_round, shl_align, exact.
  change (Zpos (digits2_pos m)) with (Zdigits2 (Zpos m)).
  rewrite Zdigits2_log2, fexp_normal by lia.
  destruct (Z.log2 (Zpos m) + 1 + 0 - 53 - 0) as [|d|d] eqn:E; [| lia |].
  - replace (Z.log2 (Zpos m)) with 52 by lia.
    rewrite (binary_round_aux_exact s m m 0 0) by lia.
    f_equal. simpl. lia.
  - assert (Hd : Zpos d = 52 - Z.log2 (Zpos m)) by lia.
    rewrite (binary_round_aux_exact s _ (Pos.iter xO m d) _ 0); try lia.
    + rewrite <- Hd, <- iter_xO. f_equal. lia.
    + rewrite iter_xO, Z.log2_mul_pow2; lia.
Qed.

Lemma of_int_exact (z : Z) :
  Z.abs z < 2 ^ 53 ->
  of_int z = match z with
             | Z0 => S754_zero false
             | Zpos m => exact false m
             | Zneg m => exact true m
             end.
Proof.
  intros Hz. destruct z as [|m|m]; [reflexivity| |];
    apply binary_round_small; lia.
Qed.

Lemma exact_mantissa (m : positive) :
  Zpos m < 2 ^ 53 ->
  0 <= Z.log2 (Zpos m) <= 52
  /\ Zpos (Z.to_pos (Zpos m * 2 ^ (52 - Z.log2 (Zpos m))))
     = Zpos m * 2 ^ (52 - Z.log2 (Zpos m)).
Proof.
  intros Hm.
  assert (Hl : 0 <= Z.log2 (Zpos m) <= 52).
  { split; [apply Z.log2_nonneg|].
    assert (Z.log2 (Zpos m) < 53); [|lia]. apply Z.log2_lt_pow2; lia. }
  split; [exact Hl|]. apply Z2Pos.id.
  apply Z.mul_pos_pos; [lia|]. apply Z.pow_pos_nonneg; lia.
Qed.

Lemma mul_exact (s1 s2 : bool) (m1 m2 : positive) :
  Zpos m1 * Zpos m2 < 2 ^ 53 ->
  mul (exact s1 m1) (exact s2 m2) = exact (xorb s1 s2) (m1 * m2).
Proof.
  intros H.
  assert (H1 : Zpos m1 < 2 ^ 53) by nia.
  assert (H2 : Zpos m2 < 2 ^ 53) by nia.
  destruct (exact_mantissa m1 H1) as [Hl1 Hq1].
  destruct (exact_mantissa m2 H2) as [Hl2 Hq2].
  destruct (exact_mantissa (m1 * m2)) as [Hl Hq]; [rewrite Pos2Z.inj_mul; lia|].
  assert (Hll : Z.log2 (Zpos m1) + Z.log2 (Zpos m2) <= Z.log2 (Zpos (m1 * m2))).
  { rewrite Pos2Z.inj_mul. apply Z.log2_mul_below; lia. }
  unfold mul, exact. cbn [SFmul].
  set (l1 := Z.log2 (Zpos m1)) in *. set (l2 := Z.log2 (Zpos m2)) in *.
  set (L := Z.log2 (Zpos (m1 * m2))) in *.
  rewrite (binary_round_aux_exact _ _
             (Z.to_pos (Zpos (m1 * m2) * 2 ^ (52 - L))) _ (L - l1 - l2 + 52)).
  - f_equal. lia.
  - lia.
  - rewrite Pos2Z.inj_mul, Hq1, Hq2, Hq, Pos2Z.inj_mul.
    replace (Zpos m1 * Zpos m2 * 2 ^ (52 - L) * 2 ^ (L - l1 - l2 + 52))
      with (Zpos m1 * Zpos m2 * (2 ^ (52 - L) * 2 ^ (L - l1 - l2 + 52))) by ring.
    rewrite <- Z.pow_add_r by lia.
    replace (Zpos m1 * 2 ^ (52 - l1) * (Zpos m2 * 2 ^ (52 - l2)))
      with (Zpos m1 * Zpos m2 * (2 ^ (52 - l1) * 2 ^ (52 - l2))) by ring.
    rewrite <- Z.pow_add_r by lia.
    do 2 f_equal. lia.
  - rewrite Hq. unfold L. rewrite Z.log2_mul_pow2; lia.
  - lia.
Qed.

Lemma mul_of_int (z w : Z) :
  0 < z < 2 ^ 53 -> Z.abs (z * w) < 2 ^ 53 ->
  mul (of_int z) (of_int w) = of_int (z * w).
Proof.
  intros Hz Hzw.
  assert (Hw : Z.abs w < 2 ^ 53) by nia.
  rewrite (of_int_exact z), (of_int_exact w), (of_int_exact (z * w)) by lia.
  destruct z as [|m|m]; [lia| |lia].
  destruct w as [|k|k]; [reflexivity| |]; cbn [Z.mul];
    apply mul_exact; cbn [Z.mul Z.abs] in Hzw; lia.
Qed.

Lemma trunc_exact (s : bool) (m : positive) :
  Zpos m < 2 ^ 53 -> trunc (exact s m) = Some (cond_Zopp s (Zpos m)).
Proof.
  intros Hm. destruct (exact_mantissa m Hm) as [Hl Hq].
  unfold trunc, exact. rewrite Hq. do 2 f_equal.
  rewrite Z.shiftl_div_pow2 by lia.
  replace (- (Z.log2 (Zpos m) - 52)) with (52 - Z.log2 (Zpos m)) by lia.
  apply Z.div_mul. apply Z.pow_nonzero; lia.
Qed.

Lemma to_int64_of_int (z : Z) : Z.abs z < 2 ^ 53 -> to_int64 (of_int z) = z.
Proof.
  intros Hz. rewrite of_int_exact by lia. unfold to_int64.
  destruct z as [|m|m]; [reflexivity| |]; rewrite trunc_exact by lia;
    cbn [cond_Zopp];
    match goal with |- (if ?b then _ else _) = _ =>
      replace b with true; [reflexivity|symmetry; apply andb_true_intro; split;
        [apply Z.leb_le|apply Z.ltb_lt]; lia] end.
Qed.

Lemma Seconds_whole (s : Z) :
  Z.abs s < 2 ^ 53 -> time.Seconds (s * time.Second) = of_int s.
Proof.
  intros Hs. unfold time.Seconds.
  rewrite Z.quot_mul, Z.rem_mul by discriminate.
  change (div (of_int 0) (of_decimal false 1 9)) with (S754_zero false).
  rewrite of_int_exact by lia. destruct s; reflexivity.
Qed.

End Float64Exact.

(** ** Datadog: [RunQuery] *)

Section DatadogRunQuery.
Import Go datadog.

Variable req : http.Request.
Variable now : Z.
Variable p : datadogProvider.
Variable query : string.

(** C1 (violated by the code).  On a 200 response whose first series has an
    empty point list, [RunQuery] panics on the index
    [len(s.Pointlist)-1 = -1]; on one whose last point has a single element
    it passes the guard [len(vs) < 1] and panics on [vs[1]].  The claim asks
    for a returned error in both cases. *)
Theorem RunQuery_panics_on_short_pointlist :
  runOn req now p query 200 (quoted "{'series':[{'pointlist':[]}]}")
  = Panics "runtime error: index out of range [-1]"
  /\ runOn req now p query 200 (quoted "{'series':[{'pointlist':[[1000]]}]}")
     = Panics "runtime error: index out of range [1] with length 1".
Proof. split; vm_compute; reflexivity. Qed.

(** C3.  On the 200 response with body
    [{'series':[{'pointlist':[[1000,1.0],[2000,42.5]]}]}] (an apostrophe for
    each double quote), [RunQuery] returns the [float64] 42.5 = 85/2 and no
    error. *)
Theorem RunQuery_last_point_of_first_series :
  exists v,
    runOn req now p query 200
      (quoted "{'series':[{'pointlist':[[1000,1.0],[2000,42.5]]}]}")
    = Returns (v, None)
    /\ v = Float64.of_decimal false 425 (-1)
    /\ Float64.to_Q v = Some (85 # 2).
Proof.
  eexists. split; [vm_compute; reflexivity|]. split; vm_compute; reflexivity.
Qed.

(** The first panic of C1 in general: whatever the body, once it decodes to
    a first series without points. *)
Lemma RunQuery_empty_pointlist body res s rest :
  Unmarshal body = inl res ->
  Series res = s :: rest ->
  Pointlist s = [] ->
  runOn req now p query 200 body
  = Panics "runtime error: index out of range [-1]".
Proof.
  intros Hu Hs Hp. unfold runOn, RunQuery, answers; simpl.
  rewrite Hu, Hs. go_step. rewrite Hp. reflexivity.
Qed.

(** The parts of C1 that hold: a status other than 200, a body that does not
    decode, and a body without series give a returned error. *)

Lemma RunQuery_non_200 status body :
  status <> 200%Z ->
  runOn req now p query status body
  = Returns (Float64.zero, Some (Errorf ("error response: " +:+ body))).
Proof.
  intros Hs. unfold runOn, RunQuery, answers; simpl.
  destruct (Z.eqb_spec status http.StatusOK) as [->|_]; [done|reflexivity].
Qed.

Lemma RunQuery_unmarshal_error body err :
  Unmarshal body = inr err ->
  runOn req now p query 200 body
  = Returns (Float64.zero,
             Some (Errorf ("error unmarshaling result: " +:+ Error err
                           +:+ ", '" +:+ body +:+ "'"))).
Proof.
  intros Hu. unfold runOn, RunQuery, answers; simpl. rewrite Hu. reflexivity.
Qed.

Lemma RunQuery_no_series body res :
  Unmarshal body = inl res ->
  Series res = [] ->
  runOn req now p query 200 body
  = Returns (Float64.zero,
             Some (Errorf ("no values found in response: " +:+ body))).
Proof.
  intros Hu Hs. unfold runOn, RunQuery, answers; simpl.
  rewrite Hu, Hs. reflexivity.
Qed.

End DatadogRunQuery.

(** ** Datadog: construction *)

Section DatadogConstruction.
Import Go datadog.

Variable ParseDuration : string -> time.Duration + error.
Variable metricInterval : string.
Variable provider : flaggerv1.MetricTemplateProvider.
Variable credentials : gmap string (list Byte.byte).

Abbreviation newDatadogProvider :=
  (newDatadogProvider ParseDuration metricInterval provider credentials).

(** C7.  With both keys and an interval that parses, a client and no error;
    without [datadog_api_key], an error that names it; with it and without
    [datadog_application_key], an error that names the latter. *)
Theorem newDatadogProvider_credentials :
  (forall a b md,
     credentials !! datadogAPIKeySecretKey = Some a ->
     credentials !! datadogApplicationKeySecretKey = Some b ->
     ParseDuration metricInterval = inl md ->
     exists dd,
       newDatadogProvider = (Some dd, None)
       /\ apiKey dd = string_of_bytes a
       /\ applicationKey dd = string_of_bytes b)
  /\ (credentials !! datadogAPIKeySecretKey = None ->
      newDatadogProvider
      = (None, Some (Errorf ("datadog credentials does not contain "
                             +:+ datadogAPIKeySecretKey))))
  /\ (forall a,
        credentials !! datadogAPIKeySecretKey = Some a ->
        credentials !! datadogApplicationKeySecretKey = None ->
        newDatadogProvider
        = (None, Some (Errorf ("datadog credentials does not contain "
                               +:+ datadogApplicationKeySecretKey)))).
Proof.
  unfold datadog.newDatadogProvider. repeat split.
  - intros a b md -> -> ->. eexists. repeat split.
  - intros ->. reflexivity.
  - intros a -> ->. reflexivity.
Qed.

(** C6, as amended.  With both keys: an interval that does not parse gives
    an error with the text of the parse error; an interval that parses gives
    a client whose [fromDelta] is the [int64] conversion, which drops the
    fraction, of the [float64] product of 10 and [Seconds()]; for a duration
    of a whole number [s] of seconds it is [10 * s]. *)
Theorem newDatadogProvider_fromDelta a b :
  credentials !! datadogAPIKeySecretKey = Some a ->
  credentials !! datadogApplicationKeySecretKey = Some b ->
  (forall err,
     ParseDuration metricInterval = inr err ->
     newDatadogProvider
     = (None, Some (Errorf ("error parsing metric interval: " +:+ Error err))))
  /\ (forall md,
        ParseDuration metricInterval = inl md ->
        exists dd,
          newDatadogProvider = (Some dd, None)
          /\ fromDelta dd
             = Float64.to_int64
                 (Float64.mul
                    (Float64.of_int datadogFromDeltaMultiplierOnMetricInterval)
                    (time.Seconds md)))
  /\ (forall md s,
        ParseDuration metricInterval = inl md ->
        (- 2 ^ 63 <= md < 2 ^ 63)%Z ->
        md = (s * time.Second)%Z ->
        exists dd,
          newDatadogProvider = (Some dd, None)
          /\ fromDelta dd = (10 * s)%Z).
Proof.
  intros Ha Hb. unfold datadog.newDatadogProvider. rewrite Ha, Hb.
  repeat split.
  - intros err ->. reflexivity.
  - intros md ->. eexists. split; reflexivity.
  - intros md s -> Hmd ->. eexists. split; [reflexivity|].
    cbn [fromDelta withFromDelta]. unfold time.Second in Hmd.
    rewrite Seconds_whole, mul_of_int, to_int64_of_int;
      unfold datadogFromDeltaMultiplierOnMetricInterval; lia.
Qed.

(** Whatever makes the construction fail, no client comes with the error. *)
Lemma newDatadogProvider_fails_closed dd err :
  newDatadogProvider = (dd, Some err) -> dd = None.
Proof.
  unfold datadog.newDatadogProvider.
  repeat case_match; intros; simplify_eq; reflexivity.
Qed.

End DatadogConstruction.

(** ** CloudWatch: the region *)

(** C2 (violated by the code).  [strings.TrimLeft] and [strings.TrimRight]
    take a set of bytes, not a prefix and a suffix: every leading byte among
    those of [monitoring.] goes, and every trailing byte among those of
    [.amazonaws.com].  For the endpoint of the region [me-south-1] the
    derived region is [e-south-1]: the [m] of the region is removed too. *)
Theorem region_me_south_1 :
  cloudwatch.region "monitoring.me-south-1.amazonaws.com" = "e-south-1"
  /\ aws.Region
       (cloudwatch.sessionConfig
          {| flaggerv1.Type_ := "cloudwatch";
             flaggerv1.Address := "monitoring.me-south-1.amazonaws.com" |})
     = "e-south-1".
Proof. split; reflexivity. Qed.

(** Where the derivation is right: a region that neither starts with a byte
    of [monitoring.] nor ends with a byte of [.amazonaws.com]. *)

Lemma TrimRight_app (s t cutset : string) :
  strings.TrimRight t cutset <> EmptyString ->
  strings.TrimRight (s +:+ t) cutset = s +:+ strings.TrimRight t cutset.
Proof.
  intros Ht. induction s as [|c s IH]; [reflexivity|].
  change (strings.TrimRight (String c (s +:+ t)) cutset
          = String c (s +:+ strings.TrimRight t cutset)).
  simpl. rewrite IH.
  destruct (s +:+ strings.TrimRight t cutset) eqn:E; [|reflexivity].
  destruct s; simpl in E; [contradiction|discriminate].
Qed.

Lemma TrimRight_all (s cutset : string) :
  forallb (strings.inCutset cutset) (list_ascii_of_string s) = true ->
  strings.TrimRight s cutset = EmptyString.
Proof.
  induction s as [|c s IH]; simpl; [reflexivity|].
  intros [Hc Hs]%andb_prop. rewrite (IH Hs), Hc. reflexivity.
Qed.

Lemma TrimLeft_app (s t cutset : string) :
  forallb (strings.inCutset cutset) (list_ascii_of_string s) = true ->
  strings.TrimLeft (s +:+ t) cutset = strings.TrimLeft t cutset.
Proof.
  induction s as [|c s IH]; simpl; [reflexivity|].
  intros [Hc Hs]%andb_prop. rewrite Hc. exact (IH Hs).
Qed.

(** X17.  For an endpoint [monitoring.<region>.amazonaws.com] whose region
    neither starts with a byte of [monitoring.] nor ends with a byte of
    [.amazonaws.com], the derived region is that region. *)
Lemma region_of_endpoint (first last : ascii) (middle : string) :
  strings.inCutset "monitoring." first = false ->
  strings.inCutset ".amazonaws.com" last = false ->
  cloudwatch.region
    ("monitoring."
     +:+ String first (middle +:+ String last ".amazonaws.com"))
  = String first (middle +:+ String last EmptyString).
Proof.
  intros Hf Hl. unfold cloudwatch.region.
  rewrite TrimLeft_app by reflexivity.
  cbn [strings.TrimLeft]. rewrite Hf.
  change (String first (middle +:+ String last ".amazonaws.com"))
    with (String first middle +:+ String last ".amazonaws.com").
  assert (Hr : strings.TrimRight (String last ".amazonaws.com") ".amazonaws.com"
               = String last EmptyString).
  { change (strings.TrimRight (String last ".amazonaws.com") ".amazonaws.com")
      with (match strings.TrimRight ".amazonaws.com" ".amazonaws.com" with
            | EmptyString =>
                if strings.inCutset ".amazonaws.com" last then EmptyString
                else String last EmptyString
            | t => String last t
            end).
    rewrite (TrimRight_all ".amazonaws.com") by reflexivity.
    rewrite Hl. reflexivity. }
  rewrite TrimRight_app; rewrite Hr; [reflexivity|discriminate].
Qed.

(** ** CloudWatch: the client *)

Section CloudWatch.
Import Go cloudwatch.

Variable MetricDataQuery : Type.
Variable Session : Type.
Variable NewSession : aws.Config -> option Session * option error.
Variable New : option Session -> outcome (cloudWatchClient MetricDataQuery).
Variable Unmarshal : string -> list MetricDataQuery + error.
Variable String_ : GetMetricDataOutput -> string.

Abbreviation newCloudWatchProvider :=
  (newCloudWatchProvider MetricDataQuery Session NewSession New).
Abbreviation RunQuery := (RunQuery MetricDataQuery Unmarshal String_).
Abbreviation IsOnline := (IsOnline MetricDataQuery).

(** C4 (violated by the code).  When [session.NewSession] fails,
    [newCloudWatchProvider] does not return [nil] with the error: unless
    [cloudwatch.New] panics on the session it is given, the result is a
    provider that is not [nil], built around that session, together with the
    error. *)
Theorem newCloudWatchProvider_not_closed provider sess err :
  NewSession (sessionConfig provider) = (sess, Some err) ->
  match newCloudWatchProvider provider with
  | Returns (Some p, e) => e = Some err /\ New sess = Returns (client p)
  | Returns (None, _) => False
  | Panics msg => New sess = Panics msg
  end.
Proof.
  intros H. unfold cloudwatch.newCloudWatchProvider. rewrite H.
  destruct (New sess); simpl; auto.
Qed.

(** C8.  A query that does not decode: the decode error, and no request to
    the backend.  A query that decodes, with an answer of the backend: an
    error when the answer has no result or its first result has no value, the
    first value of the first result otherwise. *)
Theorem cloudWatch_RunQuery p query :
  (forall err, Unmarshal query = inr err ->
     RunQuery p query
     = ([], Returns (Float64.zero,
                     Some (Errorf ("error unmarshaling query: "
                                   +:+ Error err)))))
  /\ (forall cq res,
        Unmarshal query = inl cq ->
        GetMetricData (client p) (metricDataInput cq) = (Some res, None) ->
        (MetricDataResults res = [] ->
           RunQuery p query
           = ([metricDataInput cq],
              Returns (Float64.zero,
                       Some (Errorf ("no values found in response: "
                                     +:+ String_ res)))))
        /\ (forall r rest,
              MetricDataResults res = Some r :: rest -> Values r = [] ->
              RunQuery p query
              = ([metricDataInput cq],
                 Returns (Float64.zero,
                          Some (Errorf ("no values found in response: "
                                        +:+ String_ res)))))
        /\ (forall r rest v vs,
              MetricDataResults res = Some r :: rest -> Values r = v :: vs ->
              RunQuery p query
              = ([metricDataInput cq],
                 Returns (aws.Float64Value v, None)))).
Proof.
  split.
  - intros err H. unfold cloudwatch.RunQuery. rewrite H. reflexivity.
  - intros cq res Hq Hres. unfold cloudwatch.RunQuery. rewrite Hq.
    fold (metricDataInput cq). rewrite Hres. go_step.
    repeat split.
    + intros ->. reflexivity.
    + intros r rest -> Hv. go_step. rewrite Hv. reflexivity.
    + intros r rest v vs -> Hv. go_step. rewrite Hv. go_step. reflexivity.
Qed.

(** C9.  [IsOnline] follows the error of the probe: none, online; an error
    that is no [awserr.RequestFailure], an unexpected-error failure; a
    request failure with status 400, online; a request failure with another
    status, an unexpected-status failure. *)
Theorem cloudWatch_IsOnline p out :
  (GetMetricData (client p) probe = (out, None) ->
     IsOnline p = ([probe], Returns (true, None)))
  /\ (forall text,
        GetMetricData (client p) probe = (out, Some (errorString text)) ->
        IsOnline p
        = ([probe],
           Returns (false, Some (Errorf ("unexpected error: " +:+ text)))))
  /\ (forall text,
        GetMetricData (client p) probe
        = (out, Some (requestFailure text http.StatusBadRequest)) ->
        IsOnline p = ([probe], Returns (true, None)))
  /\ (forall text status,
        GetMetricData (client p) probe
        = (out, Some (requestFailure text status)) ->
        status <> http.StatusBadRequest ->
        IsOnline p
        = ([probe],
           Returns (false,
                    Some (Errorf ("unexpected status code: " +:+ text))))).
Proof.
  unfold cloudwatch.IsOnline. fold (@probe MetricDataQuery).
  repeat split.
  - intros ->. reflexivity.
  - intros text ->. reflexivity.
  - intros text ->. reflexivity.
  - intros text status -> Hs. simpl.
    destruct (Z.eqb_spec status http.StatusBadRequest); [contradiction|].
    reflexivity.
Qed.

End CloudWatch.

(** ** The factory *)

Section FactoryDispatch.
Import Go factory.

Variable PrometheusProvider : Type.
Variable newPrometheusProvider :
  flaggerv1.MetricTemplateProvider -> gmap string (list Byte.byte) ->
  option PrometheusProvider * option error.
Variable NewPrometheusProvider :
  flaggerv1.MetricTemplateProvider -> gmap string (list Byte.byte) ->
  option PrometheusProvider * option error.
Variable NewDatadogProvider :
  string -> flaggerv1.MetricTemplateProvider ->
  gmap string (list Byte.byte) ->
  option datadog.datadogProvider * option error.
Variable ParseDuration : string -> time.Duration + error.
Variable MetricDataQuery : Type.
Variable Session : Type.
Variable NewSession : aws.Config -> option Session * option error.
Variable New :
  option Session -> outcome (cloudwatch.cloudWatchClient MetricDataQuery).

Abbreviation Provider :=
  (Provider PrometheusProvider newPrometheusProvider ParseDuration
     MetricDataQuery Session NewSession New).
Abbreviation Provider_v1 :=
  (Provider_v1 PrometheusProvider NewPrometheusProvider NewDatadogProvider
     MetricDataQuery).
Abbreviation viaPrometheus :=
  (viaPrometheus PrometheusProvider newPrometheusProvider MetricDataQuery).
Abbreviation viaDatadog :=
  (viaDatadog PrometheusProvider ParseDuration MetricDataQuery).
Abbreviation viaCloudWatch :=
  (viaCloudWatch PrometheusProvider MetricDataQuery Session NewSession New).
Abbreviation viaPrometheus_v1 :=
  (viaPrometheus_v1 PrometheusProvider NewPrometheusProvider MetricDataQuery).
Abbreviation viaDatadog_v1 :=
  (viaDatadog_v1 PrometheusProvider NewDatadogProvider MetricDataQuery).

Variable metricInterval : string.
Variable provider : flaggerv1.MetricTemplateProvider.
Variable credentials : gmap string (list Byte.byte).

(** C5.  [Provider] goes by the type: Prometheus for [prometheus], Datadog
    for [datadog], CloudWatch for [cloudwatch], and Prometheus for every
    other type, the empty one among them; each time with the result of the
    constructor as it is. *)
Theorem Provider_dispatch :
  (flaggerv1.Type_ provider = "prometheus" ->
   Provider metricInterval provider credentials
   = viaPrometheus provider credentials)
  /\ (flaggerv1.Type_ provider = "datadog" ->
      Provider metricInterval provider credentials
      = viaDatadog metricInterval provider credentials)
  /\ (flaggerv1.Type_ provider = "cloudwatch" ->
      Provider metricInterval provider credentials = viaCloudWatch provider)
  /\ (flaggerv1.Type_ provider <> "prometheus" ->
      flaggerv1.Type_ provider <> "datadog" ->
      flaggerv1.Type_ provider <> "cloudwatch" ->
      Provider metricInterval provider credentials
      = viaPrometheus provider credentials).
Proof.
  unfold factory.Provider, factory.viaPrometheus, factory.viaDatadog,
    factory.viaCloudWatch.
  repeat split.
  - intros ->. simpl. by destruct (newPrometheusProvider _ _).
  - intros ->. simpl. by destruct (datadog.newDatadogProvider _ _ _ _).
  - intros ->. simpl. by destruct (cloudwatch.newCloudWatchProvider _ _ _ _ _).
  - intros H1 H2 H3.
    apply String.eqb_neq in H1, H2, H3. rewrite H1, H2, H3.
    by destruct (newPrometheusProvider _ _).
Qed.

(** C10, as amended.  For the type [datadog] both revisions return the
    result of their Datadog constructor, called on the same interval,
    provider and credentials; for every other type but [cloudwatch] both
    return the result of their Prometheus constructor, called on the same
    provider and credentials.  So for these types both return a client of
    the same kind, and they return the same client and the same error
    exactly when the constructor of the older revision returns what the
    constructor of the newer one returns.  For the type [cloudwatch] they
    never return the same: the older revision returns the result of its
    Prometheus constructor, a Prometheus client, and the newer one what the
    CloudWatch constructor gives, a CloudWatch client or a panic. *)
Theorem Provider_v1_agrees :
  (flaggerv1.Type_ provider = "datadog" ->
   Provider_v1 metricInterval provider credentials
   = viaDatadog_v1 metricInterval provider credentials
   /\ Provider metricInterval provider credentials
      = viaDatadog metricInterval provider credentials
   /\ resultKind (Provider_v1 metricInterval provider credentials)
      = Some Datadog
   /\ resultKind (Provider metricInterval provider credentials)
      = Some Datadog
   /\ (Provider_v1 metricInterval provider credentials
       = Provider metricInterval provider credentials
       <-> NewDatadogProvider metricInterval provider credentials
           = datadog.newDatadogProvider ParseDuration metricInterval provider
               credentials))
  /\ (flaggerv1.Type_ provider <> "datadog" ->
      flaggerv1.Type_ provider <> "cloudwatch" ->
      Provider_v1 metricInterval provider credentials
      = viaPrometheus_v1 provider credentials
      /\ Provider metricInterval provider credentials
         = viaPrometheus provider credentials
      /\ resultKind (Provider_v1 metricInterval provider credentials)
         = Some Prometheus
      /\ resultKind (Provider metricInterval provider credentials)
         = Some Prometheus
      /\ (Provider_v1 metricInterval provider credentials
          = Provider metricInterval provider credentials
          <-> NewPrometheusProvider provider credentials
              = newPrometheusProvider provider credentials))
  /\ (flaggerv1.Type_ provider = "cloudwatch" ->
      Provider_v1 metricInterval provider credentials
      = viaPrometheus_v1 provider credentials
      /\ Provider metricInterval provider credentials
         = viaCloudWatch provider
      /\ resultKind (Provider_v1 metricInterval provider credentials)
         = Some Prometheus
      /\ (resultKind (Provider metricInterval provider credentials)
          = Some CloudWatch
          \/ exists msg,
               Provider metricInterval provider credentials = Panics msg)
      /\ Provider_v1 metricInterval provider credentials
         <> Provider metricInterval provider credentials).
Proof.
  unfold factory.Provider_v1, factory.Provider, factory.viaPrometheus,
    factory.viaDatadog, factory.viaCloudWatch, factory.viaPrometheus_v1,
    factory.viaDatadog_v1.
  unfold mret, outcome_ret.
  split; [|split].
  - intros ->. simpl.
    destruct (NewDatadogProvider _ _ _) as [p1 e1].
    destruct (datadog.newDatadogProvider _ _ _ _) as [p2 e2].
    cbn. repeat split; intros; congruence.
  - intros H2 H3. apply String.eqb_neq in H2, H3. rewrite H2, H3.
    destruct (NewPrometheusProvider _ _) as [p1 e1].
    destruct (newPrometheusProvider _ _) as [p2 e2].
    destruct (String.eqb (flaggerv1.Type_ provider) "prometheus");
      cbn; repeat split; intros; congruence.
  - intros ->. simpl.
    destruct (NewPrometheusProvider _ _) as [p1 e1].
    destruct (cloudwatch.newCloudWatchProvider _ _ _ _ _) as [[c e]|msg];
      cbn; repeat split; try (intros; congruence); eauto.
Qed.

End FactoryDispatch.

(** ** The properties on the sample environment *)

Section Samples.
Import Go.

(** C4 on a session that does not open: [cloudwatch.New] dereferences the
    [nil] session, and the constructor panics. *)
Lemma newCloudWatchProvider_not_closed_witness :
  sample.NewSession_fails (cloudwatch.sessionConfig sample.cloudWatchConfig)
  = (None,
     Some (errorString
             "LoadCustomCABundleError: unable to load custom CA bundle"))
  /\ match cloudwatch.newCloudWatchProvider sample.MetricDataQuery
             sample.Session sample.NewSession_fails sample.New
             sample.cloudWatchConfig with
     | Returns (Some p, e) =>
         e = Some (errorString
                     "LoadCustomCABundleError: unable to load custom CA bundle")
         /\ sample.New None = Returns (cloudwatch.client p)
     | Returns (None, _) => False
     | Panics msg => sample.New None = Panics msg
     end.
Proof.
  split; [reflexivity|].
  exact (newCloudWatchProvider_not_closed sample.MetricDataQuery
           sample.Session sample.NewSession_fails sample.New
           sample.cloudWatchConfig None _ eq_refl).
Defined.

(** C6 as stated fails.  For an interval of 150ms, 10 times the seconds is
    3/2, and [fromDelta] is 1.  And without credentials, an interval that
    does not parse gives the error of the missing key, not the parse
    error. *)
Lemma fromDelta_150ms :
  (exists dd,
     datadog.newDatadogProvider sample.ParseDuration "150ms"
       sample.datadogConfig sample.credentials = (Some dd, None)
     /\ datadog.fromDelta dd = 1%Z
     /\ ~ (inject_Z (datadog.fromDelta dd)
           == 10 * (150000000 # 1000000000))%Q)
  /\ sample.ParseDuration "soon"
     = inr (errorString (quoted "time: invalid duration 'soon'"))
  /\ datadog.newDatadogProvider sample.ParseDuration "soon"
       sample.datadogConfig ∅
     = (None,
        Some (Errorf "datadog credentials does not contain datadog_api_key")).
Proof.
  repeat apply conj; [|reflexivity|reflexivity].
  eexists. repeat apply conj; [reflexivity|reflexivity|].
  vm_compute. discriminate.
Qed.

(** C6 as amended, on the sample credentials: an interval that does not
    parse, and the interval of one minute. *)
Lemma newDatadogProvider_fromDelta_witness :
  datadog.newDatadogProvider sample.ParseDuration "soon" sample.datadogConfig
    sample.credentials
  = (None,
     Some (Errorf ("error parsing metric interval: "
                   +:+ quoted "time: invalid duration 'soon'")))
  /\ (exists dd,
        datadog.newDatadogProvider sample.ParseDuration "1m"
          sample.datadogConfig sample.credentials = (Some dd, None)
        /\ datadog.fromDelta dd = 600%Z).
Proof.
  split.
  - exact (proj1 (newDatadogProvider_fromDelta sample.ParseDuration "soon"
                    sample.datadogConfig sample.credentials
                    [Byte.x6b; Byte.x31] [Byte.x6b; Byte.x32] eq_refl eq_refl)
             _ eq_refl).
  - refine (proj2 (proj2 (newDatadogProvider_fromDelta sample.ParseDuration
                    "1m" sample.datadogConfig sample.credentials
                    [Byte.x6b; Byte.x31] [Byte.x6b; Byte.x32] eq_refl eq_refl))
              60000000000%Z 60%Z eq_refl _ eq_refl).
    split; [discriminate|reflexivity].
Defined.

(** C7 on the sample credentials, on no credentials, and on the API key
    alone. *)
Lemma newDatadogProvider_credentials_witness :
  (exists dd,
     datadog.newDatadogProvider sample.ParseDuration "1m" sample.datadogConfig
       sample.credentials = (Some dd, None)
     /\ datadog.apiKey dd = "k1"
     /\ datadog.applicationKey dd = "k2")
  /\ datadog.newDatadogProvider sample.ParseDuration "1m" sample.datadogConfig ∅
     = (None,
        Some (Errorf "datadog credentials does not contain datadog_api_key"))
  /\ datadog.newDatadogProvider sample.ParseDuration "1m" sample.datadogConfig
       {[ datadog.datadogAPIKeySecretKey := [Byte.x6b; Byte.x31] ]}
     = (None,
        Some (Errorf
                "datadog credentials does not contain datadog_application_key")).
Proof.
  repeat apply conj.
  - exact (proj1 (newDatadogProvider_credentials sample.ParseDuration "1m"
                    sample.datadogConfig sample.credentials)
             [Byte.x6b; Byte.x31] [Byte.x6b; Byte.x32] 60000000000%Z
             eq_refl eq_refl eq_refl).
  - exact (proj1 (proj2 (newDatadogProvider_credentials sample.ParseDuration
                           "1m" sample.datadogConfig ∅)) eq_refl).
  - exact (proj2 (proj2 (newDatadogProvider_credentials sample.ParseDuration
                           "1m" sample.datadogConfig
                           {[ datadog.datadogAPIKeySecretKey
                              := [Byte.x6b; Byte.x31] ]}))
             [Byte.x6b; Byte.x31] eq_refl eq_refl).
Defined.

(** C8 on a query that is no JSON, and on a query that decodes. *)
Lemma cloudWatch_RunQuery_witness :
  cloudwatch.RunQuery sample.MetricDataQuery sample.Unmarshal sample.String_
    {| cloudwatch.client := sample.backend |} "requests per second"
  = ([], Returns (Float64.zero,
                  Some (Errorf "error unmarshaling query: json: invalid syntax")))
  /\ cloudwatch.RunQuery sample.MetricDataQuery sample.Unmarshal sample.String_
       {| cloudwatch.client := sample.backend |} (quoted "[{'Id':'m1'}]")
     = ([cloudwatch.metricDataInput
           [json.Obj [("Id", json.Str "m1")]]],
        Returns (Float64.of_decimal false 425 (-1), None)).
Proof.
  split.
  - exact (proj1 (cloudWatch_RunQuery sample.MetricDataQuery sample.Unmarshal
                    sample.String_ {| cloudwatch.client := sample.backend |}
                    "requests per second") json.SyntaxError eq_refl).
  - exact (proj2 (proj2 (proj2 (cloudWatch_RunQuery sample.MetricDataQuery
                    sample.Unmarshal sample.String_
                    {| cloudwatch.client := sample.backend |}
                    (quoted "[{'Id':'m1'}]"))
                    [json.Obj [("Id", json.Str "m1")]] _ eq_refl eq_refl))
             _ _ _ _ eq_refl eq_refl).
Defined.

(** C9 on the sample backend, which rejects the probe with status 400, and
    on backends that reject it otherwise or accept it. *)
Lemma cloudWatch_IsOnline_witness :
  cloudwatch.IsOnline sample.MetricDataQuery
    {| cloudwatch.client := sample.backend |}
  = ([cloudwatch.probe], Returns (true, None))
  /\ cloudwatch.IsOnline sample.MetricDataQuery
       {| cloudwatch.client :=
            sample.failing (requestFailure "AccessDenied" 403) |}
     = ([cloudwatch.probe],
        Returns (false, Some (Errorf "unexpected status code: AccessDenied")))
  /\ cloudwatch.IsOnline sample.MetricDataQuery
       {| cloudwatch.client :=
            sample.failing (errorString "dial tcp: i/o timeout") |}
     = ([cloudwatch.probe],
        Returns (false,
                 Some (Errorf "unexpected error: dial tcp: i/o timeout")))
  /\ cloudwatch.IsOnline sample.MetricDataQuery
       {| cloudwatch.client := sample.silent |}
     = ([cloudwatch.probe], Returns (true, None)).
Proof.
  repeat apply conj.
  - exact (proj1 (proj2 (proj2 (cloudWatch_IsOnline sample.MetricDataQuery
                    {| cloudwatch.client := sample.backend |} _))) _ eq_refl).
  - refine (proj2 (proj2 (proj2 (cloudWatch_IsOnline sample.MetricDataQuery
                    {| cloudwatch.client :=
                         sample.failing (requestFailure "AccessDenied" 403) |}
                    _))) _ _ eq_refl _).
    discriminate.
  - exact (proj1 (proj2 (cloudWatch_IsOnline sample.MetricDataQuery
                    {| cloudwatch.client :=
                         sample.failing (errorString "dial tcp: i/o timeout") |}
                    _)) _ eq_refl).
  - exact (proj1 (cloudWatch_IsOnline sample.MetricDataQuery
                    {| cloudwatch.client := sample.silent |} _) eq_refl).
Defined.

(** [Factory.Provider] and its older revision in the sample environment. *)
Abbreviation sampleProvider :=
  (factory.Provider sample.PrometheusProvider sample.newPrometheusProvider
     sample.ParseDuration sample.MetricDataQuery sample.Session
     sample.NewSession sample.New).
Abbreviation sampleProvider_v1 :=
  (factory.Provider_v1 sample.PrometheusProvider sample.NewPrometheusProvider
     sample.NewDatadogProvider sample.MetricDataQuery).
Abbreviation ofType t :=
  {| flaggerv1.Type_ := t;
     flaggerv1.Address := "monitoring.us-east-1.amazonaws.com" |}.

(** C5 on the three types and on the empty type. *)
Lemma Provider_dispatch_witness :
  sampleProvider "1m" (ofType "prometheus") sample.credentials
  = Returns (factory.prometheusClient _ _ (Some tt), None)
  /\ (exists dd,
        sampleProvider "1m" (ofType "datadog") sample.credentials
        = Returns (factory.datadogClient _ _ (Some dd), None))
  /\ sampleProvider "1m" (ofType "cloudwatch") sample.credentials
     = Returns (factory.cloudWatchClient _ _
                  (Some {| cloudwatch.client := sample.backend |}), None)
  /\ sampleProvider "1m" (ofType EmptyString) sample.credentials
     = Returns (factory.prometheusClient _ _ (Some tt), None).
Proof.
  repeat apply conj.
  - exact (proj1 (Provider_dispatch _ sample.newPrometheusProvider
                    sample.ParseDuration _ _ sample.NewSession sample.New
                    "1m" (ofType "prometheus") sample.credentials) eq_refl).
  - eexists.
    exact (proj1 (proj2 (Provider_dispatch _ sample.newPrometheusProvider
                    sample.ParseDuration _ _ sample.NewSession sample.New
                    "1m" (ofType "datadog") sample.credentials)) eq_refl).
  - exact (proj1 (proj2 (proj2 (Provider_dispatch _
                    sample.newPrometheusProvider sample.ParseDuration _ _
                    sample.NewSession sample.New
                    "1m" (ofType "cloudwatch") sample.credentials))) eq_refl).
  - refine (proj2 (proj2 (proj2 (Provider_dispatch _
                    sample.newPrometheusProvider sample.ParseDuration _ _
                    sample.NewSession sample.New
                    "1m" (ofType EmptyString) sample.credentials))) _ _ _);
      discriminate.
Defined.

(** C10 as stated fails: for the type [cloudwatch] the older revision
    returns the Prometheus client and the newer one the CloudWatch client. *)
Lemma Provider_v1_differs_on_cloudwatch :
  sampleProvider_v1 "1m" (ofType "cloudwatch") sample.credentials
  = Returns (factory.prometheusClient _ _ (Some tt), None)
  /\ sampleProvider "1m" (ofType "cloudwatch") sample.credentials
     = Returns (factory.cloudWatchClient _ _
                  (Some {| cloudwatch.client := sample.backend |}), None)
  /\ factory.resultKind
       (sampleProvider_v1 "1m" (ofType "cloudwatch") sample.credentials)
     <> factory.resultKind
          (sampleProvider "1m" (ofType "cloudwatch") sample.credentials)
  /\ sampleProvider_v1 "1m" (ofType "cloudwatch") sample.credentials
     <> sampleProvider "1m" (ofType "cloudwatch") sample.credentials.
Proof.
  repeat apply conj; [reflexivity|reflexivity|discriminate|discriminate].
Qed.

(** C10 as amended, with the sample constructors, which return the same in
    both revisions: the same result for the type [datadog] and for the empty
    type, another one for the type [cloudwatch]. *)
Lemma Provider_v1_agrees_witness :
  (sampleProvider_v1 "1m" (ofType "datadog") sample.credentials
   = sampleProvider "1m" (ofType "datadog") sample.credentials
   /\ factory.resultKind
        (sampleProvider "1m" (ofType "datadog") sample.credentials)
      = Some factory.Datadog)
  /\ (sampleProvider_v1 "1m" (ofType EmptyString) sample.credentials
      = sampleProvider "1m" (ofType EmptyString) sample.credentials
      /\ factory.resultKind
           (sampleProvider "1m" (ofType EmptyString) sample.credentials)
         = Some factory.Prometheus)
  /\ sampleProvider_v1 "1m" (ofType "cloudwatch") sample.credentials
     <> sampleProvider "1m" (ofType "cloudwatch") sample.credentials.
Proof.
  pose (at_type t :=
          Provider_v1_agrees _ sample.newPrometheusProvider
            sample.NewPrometheusProvider sample.NewDatadogProvider
            sample.ParseDuration _ _ sample.NewSession sample.New
            "1m" (ofType t) sample.credentials).
  repeat apply conj.
  - destruct (proj1 (at_type "datadog") eq_refl) as (_ & _ & _ & _ & H).
    apply H. reflexivity.
  - destruct (proj1 (at_type "datadog") eq_refl) as (_ & _ & _ & H & _).
    exact H.
  - destruct (proj1 (proj2 (at_type EmptyString))) as (_ & _ & _ & _ & H);
      [discriminate|discriminate|].
    apply H. reflexivity.
  - destruct (proj1 (proj2 (at_type EmptyString))) as (_ & _ & _ & H & _);
      [discriminate|discriminate|].
    exact H.
  - destruct (proj2 (proj2 (at_type "cloudwatch")) eq_refl)
      as (_ & _ & _ & _ & H).
    exact H.
Defined.

End Samples.

(** * Further properties *)

(** ** Slices, continued *)

Lemma index_last {A} (l : list A) (x : A) :
  Go.index (l ++ [x]) (Go.len (l ++ [x]) - 1) = Go.Returns x.
Proof.
  unfold Go.index, Go.len. rewrite length_app. simpl length.
  replace (Z.of_nat (length l + 1) - 1)%Z with (Z.of_nat (length l)) by lia.
  destruct (Z.ltb_spec (Z.of_nat (length l)) 0); [lia|].
  rewrite Nat2Z.id, lookup_app_r by lia.
  replace (length l - length l)%nat with 0%nat by lia. reflexivity.
Qed.

Lemma index_1 {A} (x y : A) (l : list A) :
  Go.index (x :: y :: l) 1 = Go.Returns y.
Proof. reflexivity. Qed.

Lemma list_snoc_cases {A} (l : list A) : l = [] \/ exists l' x, l = l' ++ [x].
Proof.
  induction l as [|x l' _] using rev_ind; [by left|right; eauto].
Qed.

Ltac go_step_in H :=
  repeat (rewrite ?len_cons_ltb, ?len_nil_ltb, ?index_0 in H;
          cbn [mbind mret outcome_bind outcome_ret Go.bind Go.deref fst snd]
            in H).

(** Conjunctions of implications and equivalences between facts about the
    results of calls: split them, then clear each by the equations at
    hand. *)
Ltac cases_done :=
  repeat match goal with
         | |- _ /\ _ => split
         | |- _ <-> _ => split
         end;
  intros;
  repeat match goal with
         | H : ex _ |- _ => destruct H
         | H : _ /\ _ |- _ => destruct H
         | H : _ \/ _ |- _ => destruct H
         | H : is_Some _ |- _ => destruct H
         end;
  simplify_eq; try done; try congruence;
  try (repeat eexists; repeat split; eassumption);
  try (left; done); try (right; repeat eexists; done).

(** ** Datadog: [RunQuery], every response *)

Section DatadogQueries.
Import Go datadog.

Variable NewRequest : string -> string -> http.Request + error.
Variable Do : http.Request -> time.Duration -> http.Response + error.
Variable now : Z.
Variable p : datadogProvider.
Variable query : string.

Abbreviation RunQuery := (RunQuery NewRequest Do now p query).
Abbreviation IsOnline := (IsOnline NewRequest Do p).

(** [RunQuery] after a response with status 200 whose body was read and
    decodes to [res]. *)
Lemma RunQuery_decoded req r body res :
  NewRequest "GET" (metricsQueryEndpoint p) = inl req ->
  Do (queryRequest now p query req) (timeout p) = inl r ->
  http.ReadAll r = (body, None) ->
  http.StatusCode r = http.StatusOK ->
  Unmarshal body = inl res ->
  RunQuery
  = if (len (Series res) <? 1)%Z then
      Returns (Float64.zero,
               Some (Errorf ("no values found in response: " +:+ body)))
    else
      s ← index (Series res) 0;
      vs ← index (Pointlist s) (len (Pointlist s) - 1);
      if (len vs <? 1)%Z then
        mret (Float64.zero,
              Some (Errorf ("no values found in response: " +:+ body)))
      else v ← index vs 1; mret (v, None).
Proof.
  intros Hreq Hdo Hread Hst Hu. unfold datadog.RunQuery. rewrite Hreq.
  fold (queryRequest now p query req). rewrite Hdo, Hread, Hst, Hu.
  reflexivity.
Qed.

(** X1.  On a response with status 200 whose body decodes, with a first
    series whose last point has two elements or more, [RunQuery] returns the
    second element of that point and no error, whatever the other points,
    the other series and the further elements of the point. *)
Theorem RunQuery_last_point req r body res s rest points t v more :
  NewRequest "GET" (metricsQueryEndpoint p) = inl req ->
  Do (queryRequest now p query req) (timeout p) = inl r ->
  http.ReadAll r = (body, None) ->
  http.StatusCode r = http.StatusOK ->
  Unmarshal body = inl res ->
  Series res = s :: rest ->
  Pointlist s = points ++ [t :: v :: more] ->
  RunQuery = Returns (v, None).
Proof.
  intros Hreq Hdo Hread Hst Hu Hs Hp.
  rewrite (RunQuery_decoded req r body res) by assumption.
  rewrite Hs. go_step. rewrite Hp, index_last. go_step. rewrite index_1.
  reflexivity.
Qed.

(** X2.  Whenever [RunQuery] returns an error, the value it returns with it
    is zero. *)
Theorem RunQuery_error_zero v e :
  RunQuery = Returns (v, Some e) -> v = Float64.zero.
Proof.
  unfold datadog.RunQuery, mbind, mret, outcome_bind, outcome_ret, Go.bind.
  repeat case_match; intros; simplify_eq; reflexivity.
Qed.

(** X3.  [RunQuery] panics exactly on a response with status 200 whose body
    is read and decodes, with a first series that has no point or whose last
    point has exactly one element. *)
Theorem RunQuery_panics_iff :
  (exists msg, RunQuery = Panics msg)
  <-> exists req r body res s rest,
        NewRequest "GET" (metricsQueryEndpoint p) = inl req
        /\ Do (queryRequest now p query req) (timeout p) = inl r
        /\ http.ReadAll r = (body, None)
        /\ http.StatusCode r = http.StatusOK
        /\ Unmarshal body = inl res
        /\ Series res = s :: rest
        /\ (Pointlist s = [] \/ exists points x, Pointlist s = points ++ [[x]]).
Proof.
  split.
  - intros [msg H]. unfold datadog.RunQuery in H.
    destruct (NewRequest _ _) as [req|] eqn:Hreq; [|discriminate].
    fold (queryRequest now p query req) in H.
    destruct (Do _ _) as [r|] eqn:Hdo; [|discriminate].
    destruct (http.ReadAll r) as [body [err|]] eqn:Hread; [discriminate|].
    destruct (Z.eqb_spec (http.StatusCode r) http.StatusOK) as [Hst|];
      cbn [negb] in H; [|discriminate].
    destruct (Unmarshal body) as [res|] eqn:Hu; [|discriminate].
    destruct (Series res) as [|s rest] eqn:Hs; [discriminate|].
    exists req, r, body, res, s, rest. repeat split; try assumption.
    go_step_in H.
    destruct (list_snoc_cases (Pointlist s)) as [Hp|(points & vs & Hp)];
      [by left|right].
    rewrite Hp, index_last in H. go_step_in H.
    destruct vs as [|x [|y more]]; go_step_in H; [discriminate| |].
    + by exists points, x.
    + rewrite index_1 in H. discriminate.
  - intros (req & r & body & res & s & rest & Hreq & Hdo & Hread & Hst & Hu
            & Hs & Hp).
    rewrite (RunQuery_decoded req r body res) by assumption.
    rewrite Hs. go_step. destruct Hp as [->|(points & x & ->)].
    + eexists. reflexivity.
    + rewrite index_last. go_step. eexists. reflexivity.
Qed.

(** X5.  [IsOnline] never panics; it answers [true] without an error, or
    [false] with one; [true] exactly when the validation request is built
    and answered with status 200 and a body that can be read. *)
Theorem datadog_IsOnline :
  exists b e,
    IsOnline = Returns (b, e)
    /\ (b = true <-> e = None)
    /\ (b = true
        <-> exists req r,
              NewRequest "GET" (apiKeyValidationEndpoint p) = inl req
              /\ Do (validationRequest p req) (timeout p) = inl r
              /\ http.ReadErr r = None
              /\ http.StatusCode r = http.StatusOK)
    /\ (forall req r,
          NewRequest "GET" (apiKeyValidationEndpoint p) = inl req ->
          Do (validationRequest p req) (timeout p) = inl r ->
          http.ReadErr r = None ->
          http.StatusCode r <> http.StatusOK ->
          e = Some (Errorf ("error response: " +:+ http.Body r))).
Proof.
  unfold datadog.IsOnline, http.ReadAll.
  destruct (NewRequest _ _) as [req|err] eqn:Hreq.
  - fold (validationRequest p req).
    destruct (Do _ _) as [r|err] eqn:Hdo.
    + destruct (http.ReadErr r) as [err|] eqn:Hread.
      * do 2 eexists. split; [reflexivity|]. cases_done.
      * destruct (Z.eqb_spec (http.StatusCode r) http.StatusOK) as [Hst|Hst];
          cbn [negb]; do 2 eexists; (split; [reflexivity|]); cases_done.
    + do 2 eexists. split; [reflexivity|]. cases_done.
  - do 2 eexists. split; [reflexivity|]. cases_done.
Qed.

End DatadogQueries.

(** ** Datadog: construction, every input *)

Section DatadogConstructionMore.
Import Go datadog.

Variable ParseDuration : string -> time.Duration + error.
Variable metricInterval : string.
Variable provider : flaggerv1.MetricTemplateProvider.
Variable credentials : gmap string (list Byte.byte).

Abbreviation newDatadogProvider :=
  (newDatadogProvider ParseDuration metricInterval provider credentials).

(** X6.  A client or an error, never both and never neither; a client exactly
    when both keys are there and the interval parses. *)
Theorem newDatadogProvider_client_or_error :
  (is_Some newDatadogProvider.1 <-> newDatadogProvider.2 = None)
  /\ (newDatadogProvider.2 = None
      <-> is_Some (credentials !! datadogAPIKeySecretKey)
          /\ is_Some (credentials !! datadogApplicationKeySecretKey)
          /\ exists md, ParseDuration metricInterval = inl md).
Proof.
  unfold datadog.newDatadogProvider.
  destruct (credentials !! datadogAPIKeySecretKey) as [a|];
    [destruct (credentials !! datadogApplicationKeySecretKey) as [b|];
     [destruct (ParseDuration metricInterval) as [md|err]|]|];
    cbn [fst snd]; cases_done.
Qed.

(** X7.  The endpoints and the timeout of every client. *)
Theorem newDatadogProvider_endpoints dd e :
  newDatadogProvider = (Some dd, e) ->
  timeout dd = (5 * time.Second)%Z
  /\ (flaggerv1.Address provider = EmptyString ->
      metricsQueryEndpoint dd = "https://api.datadoghq.com/api/v1/query"
      /\ apiKeyValidationEndpoint dd
         = "https://api.datadoghq.com/api/v1/validate")
  /\ (flaggerv1.Address provider <> EmptyString ->
      metricsQueryEndpoint dd
      = flaggerv1.Address provider +:+ "/api/v1/query"
      /\ apiKeyValidationEndpoint dd
         = flaggerv1.Address provider +:+ "/api/v1/validate").
Proof.
  unfold datadog.newDatadogProvider.
  repeat case_match; intros; simplify_eq;
    cbn [timeout metricsQueryEndpoint apiKeyValidationEndpoint withFromDelta
         withApplicationKey withApiKey];
    (split; [reflexivity|]); split; intros Ha; try done;
    match goal with
    | H : String.eqb _ _ = true |- _ => apply String.eqb_eq in H
    | H : String.eqb _ _ = false |- _ => apply String.eqb_neq in H
    end; congruence.
Qed.

End DatadogConstructionMore.

(** ** CloudWatch: the region, every address *)

Lemma TrimLeft_head (s cutset : string) (c : ascii) (rest : string) :
  strings.TrimLeft s cutset = String c rest ->
  strings.inCutset cutset c = false.
Proof.
  induction s as [|a s IH]; simpl; [discriminate|].
  destruct (strings.inCutset cutset a) eqn:Ha; [exact IH|].
  intros [= <- _]. exact Ha.
Qed.

Lemma TrimRight_head (s cutset : string) (c : ascii) (rest : string) :
  strings.TrimRight s cutset = String c rest ->
  exists rest', s = String c rest'.
Proof.
  destruct s as [|a s]; simpl; [discriminate|].
  destruct (strings.TrimRight s cutset);
    [destruct (strings.inCutset cutset a); [discriminate|]|];
    intros [= <- _]; eauto.
Qed.

Lemma TrimRight_last (s cutset t : string) (c : ascii) :
  strings.TrimRight s cutset = t +:+ String c EmptyString ->
  strings.inCutset cutset c = false.
Proof.
  revert t. induction s as [|a s IH]; intros t; simpl.
  - destruct t; discriminate.
  - destruct (strings.TrimRight s cutset) as [|b u] eqn:E.
    + destruct (strings.inCutset cutset a) eqn:Ha.
      * destruct t; discriminate.
      * destruct t as [|b t]; simpl; [intros [= <-]; exact Ha|].
        intros [= _ H]. destruct t; discriminate.
    + destruct t as [|b' t]; simpl; [discriminate|].
      intros [= _ H]. exact (IH t H).
Qed.

(** X8.  The derived region never starts with a byte of [monitoring.] and
    never ends with a byte of [.amazonaws.com]. *)
Theorem region_never (address : string) :
  (forall c rest,
     cloudwatch.region address = String c rest ->
     strings.inCutset "monitoring." c = false)
  /\ (forall t c,
        cloudwatch.region address = t +:+ String c EmptyString ->
        strings.inCutset ".amazonaws.com" c = false).
Proof.
  unfold cloudwatch.region. split.
  - intros c rest H. destruct (TrimRight_head _ _ _ _ H) as [rest' H'].
    exact (TrimLeft_head _ _ _ _ H').
  - intros t c H. exact (TrimRight_last _ _ _ _ H).
Qed.

(** ** CloudWatch: the client, every answer *)

Section CloudWatchMore.
Import Go cloudwatch.

Variable MetricDataQuery : Type.
Variable Unmarshal : string -> list MetricDataQuery + error.
Variable String_ : GetMetricDataOutput -> string.
Variable p : cloudWatchProvider MetricDataQuery.
Variable query : string.

Abbreviation RunQuery := (RunQuery MetricDataQuery Unmarshal String_ p query).
Abbreviation IsOnline := (IsOnline MetricDataQuery p).

(** X9.  At most one request, the one for the decoded queries; an error comes
    with the value zero. *)
Theorem cloudWatch_RunQuery_requests :
  RunQuery.1 = match Unmarshal query with
               | inl cq => [metricDataInput cq]
               | inr _ => []
               end
  /\ (forall v e, RunQuery.2 = Returns (v, Some e) -> v = Float64.zero).
Proof.
  unfold cloudwatch.RunQuery. split.
  - destruct (Unmarshal query); reflexivity.
  - intros v e.
    unfold mbind, mret, outcome_bind, outcome_ret, Go.bind.
    repeat case_match; cbn [fst snd]; intros; simplify_eq; reflexivity.
Qed.

(** X10.  The CloudWatch [RunQuery] panics exactly when the query decodes
    and the backend answers without an error and with a [nil] output, or with
    an output whose first result is [nil]. *)
Theorem cloudWatch_RunQuery_panics_iff :
  (exists msg, RunQuery.2 = Panics msg)
  <-> exists cq out,
        Unmarshal query = inl cq
        /\ GetMetricData (client p) (metricDataInput cq) = (out, None)
        /\ (out = None
            \/ exists res rest,
                 out = Some res /\ MetricDataResults res = None :: rest).
Proof.
  unfold cloudwatch.RunQuery. split.
  - intros [msg H].
    destruct (Unmarshal query) as [cq|] eqn:Hq; [|discriminate].
    fold (metricDataInput cq) in H. cbn [snd] in H.
    destruct (GetMetricData _ _) as [out [err|]] eqn:Hg; [discriminate|].
    exists cq, out. repeat split; try assumption.
    destruct out as [res|]; [right|by left]. go_step_in H.
    destruct (MetricDataResults res) as [|[r|] rest] eqn:Hr;
      go_step_in H; [discriminate| |eauto].
    destruct (Values r); go_step_in H; discriminate.
  - intros (cq & out & Hq & Hg & Hout). rewrite Hq.
    fold (metricDataInput cq). rewrite Hg. cbn [snd].
    destruct Hout as [->|(res & rest & -> & Hr)]; go_step.
    + eexists. reflexivity.
    + rewrite Hr. go_step. eexists. reflexivity.
Qed.

(** X11.  [IsOnline] sends the probe and nothing else, never panics, and
    answers [true] without an error or [false] with one. *)
Theorem cloudWatch_IsOnline_answers :
  exists b e,
    IsOnline = ([probe], Returns (b, e))
    /\ (b = true <-> e = None)
    /\ (b = true
        <-> (GetMetricData (client p) probe).2 = None
            \/ exists text,
                 (GetMetricData (client p) probe).2
                 = Some (requestFailure text http.StatusBadRequest)).
Proof.
  unfold cloudwatch.IsOnline. fold (@probe MetricDataQuery).
  destruct (GetMetricData _ _) as [out [[text|text status]|]]; cbn [snd].
  - do 2 eexists. split; [reflexivity|]. cases_done.
  - destruct (Z.eqb_spec status http.StatusBadRequest) as [->|Hs];
      cbn [negb]; do 2 eexists; (split; [reflexivity|]); cases_done.
  - do 2 eexists. split; [reflexivity|]. cases_done.
Qed.

End CloudWatchMore.

(** ** The factory, every configuration *)

Section FactoryMore.
Import Go factory.

Variable PrometheusProvider : Type.
Variable newPrometheusProvider :
  flaggerv1.MetricTemplateProvider -> gmap string (list Byte.byte) ->
  option PrometheusProvider * option error.
Variable ParseDuration : string -> time.Duration + error.
Variable MetricDataQuery : Type.
Variable Session : Type.
Variable NewSession : aws.Config -> option Session * option error.
Variable New :
  option Session -> outcome (cloudwatch.cloudWatchClient MetricDataQuery).

Abbreviation Provider :=
  (Provider PrometheusProvider newPrometheusProvider ParseDuration
     MetricDataQuery Session NewSession New).

Variable metricInterval : string.
Variable provider : flaggerv1.MetricTemplateProvider.
Variable credentials : gmap string (list Byte.byte).

(** X12.  [Provider] panics only for the type [cloudwatch], and then exactly
    when [cloudwatch.New] panics on the session. *)
Theorem Provider_panics_iff :
  (exists msg, Provider metricInterval provider credentials = Panics msg)
  <-> flaggerv1.Type_ provider = "cloudwatch"
      /\ exists msg,
           New (NewSession (cloudwatch.sessionConfig provider)).1 = Panics msg.
Proof.
  unfold factory.Provider, cloudwatch.newCloudWatchProvider.
  destruct (String.eqb_spec (flaggerv1.Type_ provider) "prometheus") as [E1|E1].
  { destruct (newPrometheusProvider _ _). rewrite E1. cases_done. }
  destruct (String.eqb_spec (flaggerv1.Type_ provider) "datadog") as [E2|E2].
  { destruct (datadog.newDatadogProvider _ _ _ _). rewrite E2. cases_done. }
  destruct (String.eqb_spec (flaggerv1.Type_ provider) "cloudwatch") as [E3|E3].
  - destruct (NewSession _) as [sess err]. cbn [fst].
    destruct (New sess) as [c|msg]; go_step; cases_done.
  - destruct (newPrometheusProvider _ _). cases_done.
Qed.

(** X14.  Through the factory, a Datadog construction that fails yields an
    [Interface] value around a [nil] pointer, with the error; one that
    succeeds yields the client and no error. *)
Theorem Provider_datadog :
  flaggerv1.Type_ provider = "datadog" ->
  exists dd e,
    Provider metricInterval provider credentials
    = Returns (datadogClient _ _ dd, e)
    /\ datadog.newDatadogProvider ParseDuration metricInterval provider
         credentials = (dd, e)
    /\ (dd = None <-> e <> None).
Proof.
  intros E. unfold factory.Provider. rewrite E. cbn [String.eqb Ascii.eqb].
  change (String.eqb "datadog" "prometheus") with false.
  change (String.eqb "datadog" "datadog") with true. cbv iota.
  destruct (datadog.newDatadogProvider _ _ _ _) as [dd e] eqn:Hn.
  exists dd, e. split; [reflexivity|]. split; [reflexivity|].
  revert Hn. unfold datadog.newDatadogProvider.
  repeat case_match; intros; simplify_eq; cases_done.
Qed.

(** X15.  Only the Datadog branch reads the metric interval, and the
    CloudWatch branch reads no credentials. *)
Theorem Provider_reads metricInterval' credentials' :
  (flaggerv1.Type_ provider <> "datadog" ->
   Provider metricInterval provider credentials
   = Provider metricInterval' provider credentials)
  /\ (flaggerv1.Type_ provider = "cloudwatch" ->
      Provider metricInterval provider credentials
      = Provider metricInterval' provider credentials').
Proof.
  unfold factory.Provider. split.
  - intros H. apply String.eqb_neq in H. rewrite H. reflexivity.
  - intros ->. reflexivity.
Qed.

End FactoryMore.

(** ** Datadog: from the interval to the window of a query *)



(** ** The further properties on the sample environment *)

Section MoreSamples.
Import Go.

Abbreviation sampleRun body :=
  (datadog.RunQuery sample.NewRequest (datadog.answers 200 body) 1700000000
     sample.provider "avg:system.cpu.user{*}").

(** X1 on a response whose last point of the first series has three
    elements, with a second series after it: the answer is 4.5. *)
Lemma RunQuery_last_point_witness :
  sampleRun
    (quoted "{'series':[{'pointlist':[[1,2],[3,4.5,9]]},{'pointlist':[]}]}")
  = Returns (Float64.of_decimal false 45 (-1), None).
Proof.
  eapply (RunQuery_last_point sample.NewRequest (datadog.answers 200 _)
            1700000000 sample.provider _ sample.request _ _ _ _ _
            [[Float64.of_decimal false 1 0; Float64.of_decimal false 2 0]]
            (Float64.of_decimal false 3 0) (Float64.of_decimal false 45 (-1))
            [Float64.of_decimal false 9 0]);
    reflexivity.
Defined.

(** A member that comes twice is decoded into what the first one left: a
    [null] number and an absent [pointlist] keep the point [[1,2]], a stale
    point comes back when the list grows again, and an empty array empties
    the list. *)
Lemma RunQuery_repeated_member :
  sampleRun
    (quoted "{'series':[{'pointlist':[[1,2]]}],'series':[{'pointlist':[[null,null]]}]}")
  = Returns (Float64.of_decimal false 2 0, None)
  /\ sampleRun (quoted "{'series':[{'pointlist':[[1,2]]}],'series':[{}]}")
     = Returns (Float64.of_decimal false 2 0, None)
  /\ sampleRun
       (quoted "{'series':[{'pointlist':[[1,2],[3,4]]}],'series':[{'pointlist':[[5]]}],'SERIES':[{'pointlist':[[],[null,null]]}]}")
     = Returns (Float64.of_decimal false 4 0, None)
  /\ sampleRun (quoted "{'series':[{'pointlist':[[1,2]]}],'series':[]}")
     = Returns
         (Float64.zero,
          Some (Errorf
                  ("no values found in response: "
                   +:+ quoted "{'series':[{'pointlist':[[1,2]]}],'series':[]}"))).
Proof. repeat apply conj; vm_compute; reflexivity. Qed.

(** X2 on a response with status 503: the error, with the value zero. *)
Lemma RunQuery_error_zero_witness :
  datadog.RunQuery sample.NewRequest (datadog.answers 503 "Service Unavailable")
    1700000000 sample.provider "avg:system.cpu.user{*}"
  = Returns (Float64.zero,
             Some (Errorf "error response: Service Unavailable"))
  /\ Float64.zero = Float64.zero.
Proof.
  split; [reflexivity|].
  exact (RunQuery_error_zero sample.NewRequest
           (datadog.answers 503 "Service Unavailable") 1700000000
           sample.provider "avg:system.cpu.user{*}" _ _ eq_refl).
Defined.

(** X7 on the sample credentials and no address: the default host. *)
Lemma newDatadogProvider_endpoints_witness :
  exists dd,
    datadog.newDatadogProvider sample.ParseDuration "1m" sample.datadogConfig
      sample.credentials = (Some dd, None)
    /\ datadog.timeout dd = 5000000000%Z
    /\ datadog.metricsQueryEndpoint dd
       = "https://api.datadoghq.com/api/v1/query"
    /\ datadog.apiKeyValidationEndpoint dd
       = "https://api.datadoghq.com/api/v1/validate".
Proof.
  eexists. split; [reflexivity|].
  destruct (newDatadogProvider_endpoints sample.ParseDuration "1m"
              sample.datadogConfig sample.credentials _ _ eq_refl)
    as (Ht & Hd & _).
  split; [exact Ht|]. exact (Hd eq_refl).
Defined.


(** X17 on the endpoint of [us-east-1]. *)
Lemma region_of_endpoint_witness :
  strings.inCutset "monitoring." "u" = false
  /\ strings.inCutset ".amazonaws.com" "1" = false
  /\ cloudwatch.region "monitoring.us-east-1.amazonaws.com" = "us-east-1".
Proof.
  split; [reflexivity|]. split; [reflexivity|].
  exact (region_of_endpoint "u" "1" "s-east-" eq_refl eq_refl).
Defined.

(** X8 on the endpoint of [me-south-1]. *)
Lemma region_never_witness :
  cloudwatch.region "monitoring.me-south-1.amazonaws.com" = "e-south-1"
  /\ strings.inCutset "monitoring." "e" = false
  /\ strings.inCutset ".amazonaws.com" "1" = false.
Proof.
  split; [reflexivity|]. split.
  - exact (proj1 (region_never "monitoring.me-south-1.amazonaws.com")
             "e"%char "-south-1" eq_refl).
  - exact (proj2 (region_never "monitoring.me-south-1.amazonaws.com")
             "e-south-" "1"%char eq_refl).
Defined.

(** X9 on a backend that fails: one request, the error and the value
    zero. *)
Lemma cloudWatch_RunQuery_requests_witness :
  cloudwatch.RunQuery sample.MetricDataQuery sample.Unmarshal sample.String_
    {| cloudwatch.client := sample.failing (errorString "i/o timeout") |} "[]"
  = ([cloudwatch.metricDataInput []],
     Returns (Float64.zero,
              Some (Errorf "error requesting cloudwatch: i/o timeout")))
  /\ Float64.zero = Float64.zero.
Proof.
  split; [reflexivity|].
  exact (proj2 (cloudWatch_RunQuery_requests sample.MetricDataQuery
                  sample.Unmarshal sample.String_
                  {| cloudwatch.client :=
                       sample.failing (errorString "i/o timeout") |} "[]")
           _ _ eq_refl).
Defined.

Abbreviation sampleFactory :=
  (factory.Provider sample.PrometheusProvider sample.newPrometheusProvider
     sample.ParseDuration sample.MetricDataQuery sample.Session
     sample.NewSession sample.New).

(** X14 on the type [datadog] without credentials. *)
Lemma Provider_datadog_witness :
  exists e,
    sampleFactory "1m" sample.datadogConfig ∅
    = Returns (factory.datadogClient _ _ None, Some e).
Proof.
  destruct (Provider_datadog sample.PrometheusProvider
              sample.newPrometheusProvider sample.ParseDuration
              sample.MetricDataQuery sample.Session sample.NewSession
              sample.New "1m" sample.datadogConfig ∅ eq_refl)
    as (dd & e & H & Hn & _).
  injection Hn as <- <-. eexists. exact H.
Defined.

(** X15 on the type [cloudwatch] with other credentials and another
    interval. *)
Lemma Provider_reads_witness :
  sampleFactory "1m" sample.cloudWatchConfig sample.credentials
  = sampleFactory "soon" sample.cloudWatchConfig ∅.
Proof.
  exact (proj2 (Provider_reads sample.PrometheusProvider
                  sample.newPrometheusProvider sample.ParseDuration
                  sample.MetricDataQuery sample.Session sample.NewSession
                  sample.New "1m" sample.cloudWatchConfig sample.credentials
                  "soon" ∅) eq_refl).
Defined.

End MoreSamples.
